(** * csv_agent: the streaming response aggregator of [src/agents/csv_agent.py]

    A shallow embedding of [process_user_input], [download_response_image]
    and [download_file_content], and the properties of the aggregation
    loop (code fences, role labels, collected file identifiers) and of the
    file download loop (per-identifier error handling); then of the rest of
    the file: the paths of the CSV tables, [initialize_agent], and the
    Streamlit script with its chat history and its [cleanup]. *)

From Stdlib Require Import Ascii.
From stdpp Require Import base option list strings gmap.

Local Open Scope string_scope.

(** ** Python strings *)

Module PyStr.

(** The line feed, [\n] in the Python literals. *)
Definition LF : string := String "010"%char EmptyString.

(** [str.lower()] restricted to the ASCII letters. *)
Definition lower_ascii (c : ascii) : ascii :=
  let n := nat_of_ascii c in
  if (65 <=? n)%nat && (n <=? 90)%nat then ascii_of_nat (n + 32) else c.

Fixpoint lower (s : string) : string :=
  match s with
  | EmptyString => EmptyString
  | String c s' => String (lower_ascii c) (lower s')
  end.

(** [s.startswith(p)] *)
Definition startswith (s p : string) : bool := String.prefix p s.

(** [s.endswith(p)] *)
Definition endswith (s p : string) : bool :=
  String.prefix (String.rev p) (String.rev s).

End PyStr.

Import PyStr.

(** ** Exceptions *)

(** The exceptions of the model.  [AttributeError] is what reading a missing
    attribute raises; [ServiceError] stands for whatever the remote file
    service raises and [OSError] for a failed [open]/[write].  All three are
    subclasses of [Exception]. *)
Inductive exn : Type :=
  | AttributeError (name : string)
  | ServiceError (msg : string)
  | OSError (msg : string).

(** [str(e)] *)
Definition str_exn (e : exn) : string :=
  match e with
  | AttributeError name => "object has no attribute '" ++ name ++ "'"
  | ServiceError msg => msg
  | OSError msg => msg
  end.

Inductive result (A : Type) : Type :=
  | Ok (a : A)
  | Raise (e : exn).
Arguments Ok {A} a.
Arguments Raise {A} e.

Module Exc.

Definition ret {A} (a : A) : result A := Ok a.

Definition bind {A B} (m : result A) (k : A -> result B) : result B :=
  match m with
  | Ok a => k a
  | Raise e => Raise e
  end.

End Exc.

Declare Scope exc_scope.
Delimit Scope exc_scope with exc.
Notation "'do' x <- m ; k" := (Exc.bind m (fun x => k))
  (at level 10, x name, m at level 100, k at level 200) : exc_scope.

(** ** The streamed responses *)

Record AssistantAgentThread : Type := { thread_id : string }.

(** The items of a streamed message; only the file references are looked
    at by the aggregation. *)
Inductive Item : Type :=
  | StreamingFileReferenceContent (file_id : string)
  | StreamingTextContent (text : string)
  | OtherContent.

(** The [role] attribute of a response: missing altogether (then [hasattr]
    is false), present and [None], or present with a value.  A role value is
    modelled by the string its f-string formatting gives. *)
Inductive RoleAttr : Type :=
  | AttrMissing
  | AttrNone
  | AttrValue (role : string).

(** One streamed response, with the attributes [process_user_input] reads.
    [content] holds [str(response.content)]. *)
Record Response : Type := {
  metadata : gmap string bool;
  content : string;
  role_attr : RoleAttr;
  items : list Item;
  thread : option AssistantAgentThread;
}.

(** [hasattr(response, "role")] *)
Definition hasattr_role (response : Response) : bool :=
  match role_attr response with
  | AttrMissing => false
  | _ => true
  end.

(** [response.role]: [None] or a role, or [AttributeError]. *)
Definition getattr_role (response : Response) : result (option string) :=
  match role_attr response with
  | AttrMissing => Raise (AttributeError "role")
  | AttrNone => Ok None
  | AttrValue r => Ok (Some r)
  end.

(** [x is not None] *)
Definition is_not_None {A} (x : option A) : bool :=
  match x with
  | Some _ => true
  | None => false
  end.

(** [a != b] on values that are [None] or a string. *)
Definition py_ne (a b : option string) : bool :=
  negb (bool_decide (a = b)).

(** [f"{x}"] for [x] that is [None] or a string. *)
Definition py_format (x : option string) : string :=
  match x with
  | Some s => s
  | None => "None"
  end.

(** [[item.file_id for item in response.items
      if isinstance(item, StreamingFileReferenceContent)]] *)
Fixpoint file_ids_of_items (its : list Item) : list string :=
  match its with
  | [] => []
  | StreamingFileReferenceContent fid :: rest => fid :: file_ids_of_items rest
  | _ :: rest => file_ids_of_items rest
  end.

(** ** The aggregation loop of [process_user_input] *)

(** The local variables of [process_user_input] that the loop updates. *)
Record Locals : Type := mkLocals {
  collected_responses : string;
  file_ids : list string;
  is_code : bool;
  last_role : option string;
  cur_thread : option AssistantAgentThread;
}.

Definition open_fence : string := LF ++ LF ++ "```python" ++ LF.
Definition close_fence : string := LF ++ "```" ++ LF.

(** [f"\n**{role}:** "] *)
Definition role_label (role : option string) : string :=
  LF ++ "**" ++ py_format role ++ ":** ".

(** The state before the loop (lines 73-76), with the [thread] argument. *)
Definition init_locals (thread : option AssistantAgentThread) : Locals :=
  mkLocals "" [] false None thread.

(** [response.metadata.get("code", False)] *)
Definition current_is_code (response : Response) : bool :=
  default false (metadata response !! "code").

(** The condition of line 92, with Python's short-circuit [and]. *)
Definition role_changed (l : Locals) (response : Response) : result bool :=
  (if hasattr_role response then
     do r <- getattr_role response ;
     if is_not_None r then
       do r' <- getattr_role response ;
       Exc.ret (py_ne (last_role l) r')
     else Exc.ret false
   else Exc.ret false)%exc.

(** Lines 82-86: the branch of a code response. *)
Definition code_branch (l : Locals) (response : Response) : result Locals :=
  let content_text := content response in
  let l1 :=
    if negb (is_code l)
    then mkLocals (collected_responses l ++ open_fence) (file_ids l)
                  true (last_role l) (cur_thread l)
    else l in
  Exc.ret (mkLocals (collected_responses l1 ++ content_text) (file_ids l1)
                    (is_code l1) (last_role l1) (cur_thread l1)).

(** Lines 88-95: the branch of a response that is not code. *)
Definition text_branch (l : Locals) (response : Response) : result Locals :=
  (let content_text := content response in
   let l1 :=
     if is_code l
     then mkLocals (collected_responses l ++ close_fence) (file_ids l)
                   false None (cur_thread l)
     else l in
   do c <- role_changed l1 response ;
   do l2 <- (if c : bool then
            do r <- getattr_role response ;
            do r' <- getattr_role response ;
            Exc.ret (mkLocals (collected_responses l1 ++ role_label r)
                              (file_ids l1) (is_code l1) r' (cur_thread l1))
          else Exc.ret l1) ;
   Exc.ret (mkLocals (collected_responses l2 ++ content_text) (file_ids l2)
                     (is_code l2) (last_role l2) (cur_thread l2)))%exc.

(** One iteration of the loop, lines 79-100. *)
Definition loop_body (l : Locals) (response : Response) : result Locals :=
  (do l1 <- (if current_is_code response
          then code_branch l response
          else text_branch l response) ;
   Exc.ret (mkLocals (collected_responses l1)
                     (file_ids l1 ++ file_ids_of_items (items response))
                     (is_code l1) (last_role l1) (thread response)))%exc.

(** The [async for] over the responses the stream delivers, in order. *)
Fixpoint run_loop (l : Locals) (stream : list Response) : result Locals :=
  match stream with
  | [] => Exc.ret l
  | response :: rest => (do l' <- loop_body l response ; run_loop l' rest)%exc
  end.

(** Lines 102-103: the fence still open when the stream ends is closed. *)
Definition finish (l : Locals) : Locals :=
  if is_code l
  then mkLocals (collected_responses l ++ close_fence) (file_ids l)
                (is_code l) (last_role l) (cur_thread l)
  else l.

(** Lines 73-103: everything [process_user_input] does before the download. *)
Definition aggregate (thread : option AssistantAgentThread)
    (stream : list Response) : result Locals :=
  (do l <- run_loop (init_locals thread) stream ; Exc.ret (finish l))%exc.

(** The identifiers a response refers to, in the order of its items. *)
Definition referenced_file_ids (response : Response) : list string :=
  file_ids_of_items (items response).

(** ** The world outside: the working directory, the disk and the page *)

(** What Streamlit is asked to show. *)
Inductive UiEvent : Type :=
  | st_write (msg : string)
  | st_image (path : string).

(** [cwd] is what [os.getcwd()] returns, [disk] the files written so far
    (oldest first), [page] the Streamlit calls so far (oldest first), and
    [open_fault path] the message of the [OSError] that opening [path] for
    writing raises, if it does. *)
Record World : Type := mkWorld {
  cwd : string;
  disk : list (string * list Byte.byte);
  page : list UiEvent;
  open_fault : string -> option string;
}.

Definition IO (A : Type) : Type := World -> result A * World.

Module Io.

Definition ret {A} (a : A) : IO A := fun w => (Ok a, w).

Definition bind {A B} (m : IO A) (k : A -> IO B) : IO B :=
  fun w =>
    match m w with
    | (Ok a, w') => k a w'
    | (Raise e, w') => (Raise e, w')
    end.

(** A computation that touches nothing outside. *)
Definition lift {A} (r : result A) : IO A := fun w => (r, w).

(** [try: body except Exception as e: handler(e)]; what [body] did before
    it raised stays done. *)
Definition try_except {A} (body : IO A) (handler : exn -> IO A) : IO A :=
  fun w =>
    match body w with
    | (Ok a, w') => (Ok a, w')
    | (Raise e, w') => handler e w'
    end.

(** [for x in xs: body(x)] *)
Fixpoint for_each {A} (xs : list A) (body : A -> IO unit) : IO unit :=
  match xs with
  | [] => ret tt
  | x :: rest => bind (body x) (fun _ => for_each rest body)
  end.

End Io.

Declare Scope io_scope.
Delimit Scope io_scope with io.
Notation "'do' x <- m ; k" := (Io.bind m (fun x => k))
  (at level 10, x name, m at level 100, k at level 200) : io_scope.
Notation "'exec' m ; k" := (Io.bind m (fun _ => k))
  (at level 10, m at level 100, k at level 200) : io_scope.

(** [st.write(msg)] *)
Definition write_page (msg : string) : IO unit :=
  fun w => (Ok tt, mkWorld (cwd w) (disk w) (page w ++ [st_write msg])
                           (open_fault w)).

(** [st.image(path)] *)
Definition image_page (path : string) : IO unit :=
  fun w => (Ok tt, mkWorld (cwd w) (disk w) (page w ++ [st_image path])
                           (open_fault w)).

(** [os.getcwd()] *)
Definition getcwd : IO string := fun w => (Ok (cwd w), w).

(** [os.path.join(a, b)] on POSIX paths. *)
Definition path_join (a b : string) : string :=
  if startswith b "/" then b
  else if bool_decide (a = "") || endswith a "/" then a ++ b
  else a ++ "/" ++ b.

(** [with open(path, "wb") as file: file.write(data)] *)
Definition write_file (path : string) (data : list Byte.byte) : IO unit :=
  fun w =>
    match open_fault w path with
    | Some msg => (Raise (OSError msg), w)
    | None => (Ok tt, mkWorld (cwd w) (disk w ++ [(path, data)]) (page w)
                              (open_fault w))
    end.

(** The agent, as far as this file uses it: [invoke_stream] gives the
    responses streamed for a message and a thread, and [files_content] is
    [agent.client.files.content(file_id)], returning the bytes of the file
    or raising. *)
Record AzureAssistantAgent : Type := {
  invoke_stream : string -> option AssistantAgentThread -> list Response;
  files_content : string -> result (list Byte.byte);
}.

(** Lines 20-31. *)
Definition download_file_content (agent : AzureAssistantAgent)
    (file_id : string) : IO unit :=
  Io.try_except
    (do response_content <- Io.lift (files_content agent file_id) ;
     do d <- getcwd ;
     let file_path := path_join d (file_id ++ ".png") in
     exec write_file file_path response_content ;
     exec write_page ("File saved to: " ++ file_path) ;
     if endswith (lower file_path) ".png"
     then image_page file_path
     else Io.ret tt)%io
    (fun e =>
       write_page ("An error occurred while downloading file " ++ file_id
                   ++ ": " ++ str_exn e)).

(** Lines 33-36. *)
Definition download_response_image (agent : AzureAssistantAgent)
    (file_ids : list string) : IO unit :=
  match file_ids with
  | [] => Io.ret tt
  | _ :: _ => Io.for_each file_ids (download_file_content agent)
  end.

(** Lines 72-106. *)
Definition process_user_input (user_input : string)
    (agent : AzureAssistantAgent) (thread : option AssistantAgentThread)
    : IO (string * option AssistantAgentThread) :=
  (do l <- Io.lift (aggregate thread (invoke_stream agent user_input thread)) ;
   exec download_response_image agent (file_ids l) ;
   Io.ret (collected_responses l, cur_thread l))%io.

(** ** What the loop appends, piece by piece *)

(** The pieces the loop appends to [collected_responses]: the two fence
    markers, a role label, and the text of a response. *)
Inductive Chunk : Type :=
  | OpenFence
  | CloseFence
  | RoleLabel (role : string)
  | Text (s : string).

Definition render_chunk (c : Chunk) : string :=
  match c with
  | OpenFence => open_fence
  | CloseFence => close_fence
  | RoleLabel r => role_label (Some r)
  | Text s => s
  end.

Fixpoint render (cs : list Chunk) : string :=
  match cs with
  | [] => ""
  | c :: rest => render_chunk c ++ render rest
  end.

(** The pieces one iteration appends, read off the two branches of the loop
    body: lines 84 and 86 for a code response, lines 89, 93 and 95 otherwise. *)
Definition emitted (l : Locals) (response : Response) : list Chunk :=
  if current_is_code response then
    (if negb (is_code l) then [OpenFence] else [])
      ++ [Text (content response)]
  else
    (if is_code l then [CloseFence] else [])
      ++ match role_attr response with
         | AttrValue r =>
             if py_ne (if is_code l then None else last_role l) (Some r)
             then [RoleLabel r] else []
         | _ => []
         end
      ++ [Text (content response)].

(** The value of [last_role] after one iteration. *)
Definition next_role (l : Locals) (response : Response) : option string :=
  if current_is_code response then last_role l
  else
    let before := if is_code l then None else last_role l in
    match role_attr response with
    | AttrValue r => Some r
    | _ => before
    end.

(** The pieces appended over a whole stream, from the state [l]. *)
Fixpoint loop_trace (l : Locals) (stream : list Response) : list Chunk :=
  match stream with
  | [] => []
  | response :: rest =>
      emitted l response
        ++ match loop_body l response with
           | Ok l' => loop_trace l' rest
           | Raise _ => []
           end
  end.

(** The piece appended after the loop, lines 102-103. *)
Definition finish_trace (l : Locals) : list Chunk :=
  if is_code l then [CloseFence] else [].

(** Reading a sequence of pieces from left to right with the fence state
    [opened]: an opening fence is only legal when no fence is open and a
    closing fence only when one is.  The result is the fence state at the
    end, or [None] when a fence marker was out of place. *)
Fixpoint scan_fences (opened : bool) (cs : list Chunk) : option bool :=
  match cs with
  | [] => Some opened
  | OpenFence :: rest => if opened then None else scan_fences true rest
  | CloseFence :: rest => if opened then scan_fences false rest else None
  | _ :: rest => scan_fences opened rest
  end.

(** The role a response carries, if it carries one. *)
Definition role_of (response : Response) : option string :=
  match role_attr response with
  | AttrValue r => Some r
  | _ => None
  end.

(** The role-transition rule in the words of the specification: each text in
    order, with the label in front exactly when the response has a role and
    that role differs from the role labelled last. *)
Fixpoint labeled_concat (labelled : option string) (stream : list Response)
    : string :=
  match stream with
  | [] => ""
  | response :: rest =>
      match role_of response with
      | Some r =>
          if bool_decide (labelled = Some r)
          then content response ++ labeled_concat labelled rest
          else (LF ++ "**" ++ r ++ ":** ") ++ content response
                 ++ labeled_concat (Some r) rest
      | None => content response ++ labeled_concat labelled rest
      end
  end.

(** ** The file downloads, identifier by identifier *)

(** The path [download_file_content] saves the file of [file_id] under. *)
Definition saved_path (w : World) (file_id : string) : string :=
  path_join (cwd w) (file_id ++ ".png").

(** The message shown when the download of [file_id] raised [e]. *)
Definition error_message (file_id : string) (e : exn) : string :=
  "An error occurred while downloading file " ++ file_id ++ ": " ++ str_exn e.

(** What the page shows for one identifier: the error of that identifier
    when fetching or saving its file failed, the saved file otherwise. *)
Definition reported (w : World) (agent : AzureAssistantAgent)
    (file_id : string) : list UiEvent :=
  match files_content agent file_id with
  | Raise e => [st_write (error_message file_id e)]
  | Ok data =>
      match open_fault w (saved_path w file_id) with
      | Some msg => [st_write (error_message file_id (OSError msg))]
      | None =>
          st_write ("File saved to: " ++ saved_path w file_id)
            :: (if endswith (lower (saved_path w file_id)) ".png"
                then [st_image (saved_path w file_id)] else [])
      end
  end.

(** The files written for one identifier. *)
Definition saved (w : World) (agent : AzureAssistantAgent)
    (file_id : string) : list (string * list Byte.byte) :=
  match files_content agent file_id with
  | Raise e => []
  | Ok data =>
      match open_fault w (saved_path w file_id) with
      | Some msg => []
      | None => [(saved_path w file_id, data)]
      end
  end.

(** The same response with another [role] attribute. *)
Definition with_role (ra : RoleAttr) (response : Response) : Response :=
  {| metadata := metadata response; content := content response;
     role_attr := ra; items := items response; thread := thread response |}.

(** The same response with another [metadata] dictionary. *)
Definition with_metadata (md : gmap string bool) (response : Response)
    : Response :=
  {| metadata := md; content := content response;
     role_attr := role_attr response; items := items response;
     thread := thread response |}.

(** The state a response that is not code and has no role leaves behind:
    the fence closed if one was open, then the text, and no label. *)
Definition unlabelled (l : Locals) (text : string) (its : list Item)
    (th : option AssistantAgentThread) : Locals :=
  mkLocals (collected_responses l
              ++ (if is_code l then close_fence else "") ++ text)
           (file_ids l ++ file_ids_of_items its) false
           (if is_code l then None else last_role l) th.

(** ** The scenarios of the specification *)

Module Scenario.

(** A response that is not code, with a role. *)
Definition prose (text role : string) (ids : list string) : Response :=
  {| metadata := ∅; content := text; role_attr := AttrValue role;
     items := map StreamingFileReferenceContent ids; thread := None |}.

(** A code response; it carries no role. *)
Definition code (text : string) : Response :=
  {| metadata := {[ "code" := true ]}; content := text;
     role_attr := AttrNone; items := []; thread := None |}.

Definition A : list Response :=
  [prose "Hello " "assistant" []; prose "world" "assistant" []].

Definition B : list Response :=
  [code "print(1)"; code LF; prose "done" "assistant" []].

Definition C : list Response :=
  [prose "see chart" "assistant" ["f1"];
   prose " and table" "assistant" ["f2"; "f1"]].

(** The document of scenario B, as the specification writes it. *)
Definition B_text : string :=
  LF ++ LF ++ "```python" ++ LF ++ "print(1)" ++ LF ++ LF ++ "```" ++ LF
     ++ LF ++ "**assistant:** done".



End Scenario.

(** ** The paths of the two CSV tables (lines 11-18) *)

(** [p[:p.rfind("/") + 1]]: [p] up to its last separator, included. *)
Fixpoint upto_last_sep (p : string) : string :=
  match p with
  | EmptyString => EmptyString
  | String c p' =>
      match upto_last_sep p' with
      | EmptyString =>
          if Ascii.eqb c "/" then String c EmptyString else EmptyString
      | h => String c h
      end
  end.

(** [s.rstrip("/")] *)
Fixpoint rstrip_sep (s : string) : string :=
  match s with
  | EmptyString => EmptyString
  | String c s' =>
      match rstrip_sep s' with
      | EmptyString =>
          if Ascii.eqb c "/" then EmptyString else String c EmptyString
      | t => String c t
      end
  end.

(** [s == "/" * len(s)] *)
Fixpoint all_sep (s : string) : bool :=
  match s with
  | EmptyString => true
  | String c s' => Ascii.eqb c "/" && all_sep s'
  end.

(** [os.path.dirname(p)] on POSIX paths. *)
Definition dirname (p : string) : string :=
  let head := upto_last_sep p in
  if negb (bool_decide (head = "")) && negb (all_sep head)
  then rstrip_sep head
  else head.

(** No separator in [s]. *)
Fixpoint no_sep (s : string) : bool :=
  match s with
  | EmptyString => true
  | String c s' => negb (Ascii.eqb c "/") && no_sep s'
  end.

(** Lines 11-12, for the working directory [current_dir]. *)
Definition parent_dir (current_dir : string) : string := dirname current_dir.

(** Lines 13-15. *)
Definition csv_file_path_1 (current_dir : string) : string :=
  path_join (path_join (path_join (parent_dir current_dir) "data_processing")
                       "csv_tables")
            "merged_analysis_of_financial_experience.csv".

(** Lines 16-18. *)
Definition csv_file_path_2 (current_dir : string) : string :=
  path_join (path_join (path_join (parent_dir current_dir) "data_processing")
                       "csv_tables")
            "merged_schedules_of_changes_in_net_pension_liability.csv".

(** ** The assistant service and the Streamlit session *)

(** What [client.beta.assistants.create] is asked for.  [req_file_ids] are
    the identifiers [configure_code_interpreter_tool(file_ids=...)] puts in
    the resources of the code interpreter. *)
Record AssistantRequest : Type := {
  req_model : string;
  req_instructions : string;
  req_name : string;
  req_file_ids : list string;
}.

(** The calls [initialize_agent] and [cleanup] make to the service. *)
Inductive ApiCall : Type :=
  | FilesCreate (path : string) (data : list Byte.byte)
  | AssistantsCreate (req : AssistantRequest)
  | AssistantsDelete (assistant_id : string)
  | ThreadDelete (t : AssistantAgentThread).

(** The service, seen from the script: what each call answers, given the
    calls made before it.  [setup_resources] answers with the model name,
    [files_create] with the identifier of the uploaded file and
    [assistants_create] with the identifier of the assistant and the way the
    agent built on it streams and serves files. *)
Record Remote : Type := {
  setup_resources : result string;
  files_create : list ApiCall -> string -> list Byte.byte -> result string;
  assistants_create :
    list ApiCall -> AssistantRequest -> result (string * AzureAssistantAgent);
  assistants_delete : list ApiCall -> string -> result unit;
  thread_delete : list ApiCall -> AssistantAgentThread -> result unit;
}.

(** The agent [initialize_agent] returns: [AzureAssistantAgent(client,
    definition)], with the [id] of its definition. *)
Record Agent : Type := {
  agent_id : string;
  agent_definition : AssistantRequest;
  agent_core : AzureAssistantAgent;
}.

Inductive Client : Type := AzureClient.

(** [st.session_state], with the four keys the script uses; [None] is a key
    that is not there.  The value of [thread] is itself [None] or a thread. *)
Record SessionState : Type := mkSession {
  ss_chat_history : option string;
  ss_agent : option Agent;
  ss_client : option Client;
  ss_thread : option (option AssistantAgentThread);
}.

(** [st.session_state.clear()] leaves this. *)
Definition empty_session : SessionState := mkSession None None None None.

(** What the page is asked to show; the input widgets are not recorded.
    [st_download] is a call made inside [process_user_input]. *)
Inductive ScreenEvent : Type :=
  | st_title (s : string)
  | st_info (s : string)
  | st_success (s : string)
  | st_markdown (s : string)
  | st_download (e : UiEvent).

(** The state of the application between two statements of the script. *)
Record App : Type := mkApp {
  app_cwd : string;
  app_disk : list (string * list Byte.byte);
  app_open_fault : string -> option string;
  session : SessionState;
  screen : list ScreenEvent;
  calls : list ApiCall;
  remote : Remote;
}.

Definition APP (A : Type) : Type := App -> result A * App.

Module Ap.

Definition ret {A} (a : A) : APP A := fun s => (Ok a, s).

Definition bind {A B} (m : APP A) (k : A -> APP B) : APP B :=
  fun s =>
    match m s with
    | (Ok a, s') => k a s'
    | (Raise e, s') => (Raise e, s')
    end.

(** Running a computation of [IO]: it sees the working directory and the
    disk of the application, and its Streamlit calls go to the screen in the
    order they were made. *)
Definition lift_io {A} (m : IO A) : APP A :=
  fun s =>
    match m (mkWorld (app_cwd s) (app_disk s) [] (app_open_fault s)) with
    | (r, w') =>
        (r, mkApp (cwd w') (disk w') (open_fault w') (session s)
                  (screen s ++ map st_download (page w')) (calls s)
                  (remote s))
    end.

End Ap.

Declare Scope app_scope.
Delimit Scope app_scope with app.
Notation "'do' x <- m ; k" := (Ap.bind m (fun x => k))
  (at level 10, x name, m at level 100, k at level 200) : app_scope.
Notation "'exec' m ; k" := (Ap.bind m (fun _ => k))
  (at level 10, m at level 100, k at level 200) : app_scope.

(** A Streamlit call of the script itself. *)
Definition show_on_screen (e : ScreenEvent) : APP unit :=
  fun s => (Ok tt, mkApp (app_cwd s) (app_disk s) (app_open_fault s)
                         (session s) (screen s ++ [e]) (calls s) (remote s)).

Definition set_session (ss : SessionState) : APP unit :=
  fun s => (Ok tt, mkApp (app_cwd s) (app_disk s) (app_open_fault s)
                         ss (screen s) (calls s) (remote s)).

Definition get_session : APP SessionState := fun s => (Ok (session s), s).

(** A call to the service: it is recorded, and answered from the calls made
    before it. *)
Definition call_service {A} (c : ApiCall)
    (answer : Remote -> list ApiCall -> result A) : APP A :=
  fun s => (answer (remote s) (calls s),
            mkApp (app_cwd s) (app_disk s) (app_open_fault s) (session s)
                  (screen s) (calls s ++ [c]) (remote s)).

(** Reading an attribute of [st.session_state]; a key that is not there
    raises [AttributeError]. *)
Definition session_attr {A} (name : string) (field : SessionState -> option A)
    : APP A :=
  fun s =>
    match field (session s) with
    | Some v => (Ok v, s)
    | None => (Raise (AttributeError name), s)
    end.

(** The bytes last written under [path], if any. *)
Fixpoint disk_read (d : list (string * list Byte.byte)) (path : string)
    : option (list Byte.byte) :=
  match d with
  | [] => None
  | (p, data) :: rest =>
      match disk_read rest path with
      | Some later => Some later
      | None => if bool_decide (p = path) then Some data else None
      end
  end.

(** [open(path, "rb")] and the reading of the file. *)
Definition read_file (path : string) : APP (list Byte.byte) :=
  fun s =>
    match disk_read (app_disk s) path with
    | Some data => (Ok data, s)
    | None =>
        (Raise (OSError ("[Errno 2] No such file or directory: '" ++ path
                         ++ "'")), s)
    end.

(** ** [initialize_agent] (lines 38-70) *)

(** Lines 46-52. *)
Definition instructions : string :=
  LF
  ++ "        Analyze the available data to provide an answer to the user's question."
  ++ LF
  ++ "        Always format your response using markdown and include numerical indexing for lists or tables."
  ++ LF
  ++ "        Always sort lists in ascending order."
  ++ LF
  ++ "        Please use the context of the previous conversation to answer follow-up questions."
  ++ LF
  ++ "        Always include a chart or diagram to illustrate your findings."
  ++ LF ++ "    ".

(** Lines 41-44: each table is opened and uploaded, and the identifier the
    service answers with is appended to the list. *)
Fixpoint upload_tables (paths : list string) (uploaded : list string)
    : APP (list string) :=
  match paths with
  | [] => Ap.ret uploaded
  | path :: rest =>
      (do data <- read_file path ;
       do fid <- call_service (FilesCreate path data)
                   (fun r before => files_create r before path data) ;
       upload_tables rest (uploaded ++ [fid]))%app
  end.

(** The request of lines 58-64 for a model and uploaded tables. *)
Definition assistant_request (model : string) (uploaded : list string)
    : AssistantRequest :=
  {| req_model := model; req_instructions := instructions;
     req_name := "SampleAssistantAgent"; req_file_ids := uploaded |}.

Definition initialize_agent : APP (Agent * Client) :=
  (do model <- (fun s => (setup_resources (remote s), s)) ;
   do current_dir <- (fun s => (Ok (app_cwd s), s)) ;
   do uploaded <- upload_tables [csv_file_path_1 current_dir;
                                 csv_file_path_2 current_dir] [] ;
   let req := assistant_request model uploaded in
   do definition <- call_service (AssistantsCreate req)
                      (fun r before => assistants_create r before req) ;
   Ap.ret ({| agent_id := fst definition; agent_definition := req;
              agent_core := snd definition |}, AzureClient))%app.

(** ** The script (lines 109-145) *)

(** What the user did to get this run of the script: the text in the box,
    whether the form was submitted, whether the cleanup button was pressed. *)
Record Inputs : Type := {
  user_input_box : string;
  submit_button : bool;
  cleanup_button : bool;
}.

(** Lines 129-136: a query is sent to the agent. *)
Definition process_query (user_input : string) : APP unit :=
  (exec show_on_screen (st_info "Processing your query, please wait...") ;
   do agent <- session_attr "agent" ss_agent ;
   do th <- session_attr "thread" ss_thread ;
   do answer <- Ap.lift_io
                  (process_user_input user_input (agent_core agent) th) ;
   do ss <- get_session ;
   exec set_session (mkSession (ss_chat_history ss) (ss_agent ss)
                               (ss_client ss) (Some (snd answer))) ;
   do h <- session_attr "chat_history" ss_chat_history ;
   do ss1 <- get_session ;
   exec set_session
          (mkSession (Some (h ++ LF ++ "**User:** " ++ user_input ++ LF))
                     (ss_agent ss1) (ss_client ss1) (ss_thread ss1)) ;
   do h1 <- session_attr "chat_history" ss_chat_history ;
   do ss2 <- get_session ;
   exec set_session (mkSession (Some (h1 ++ fst answer)) (ss_agent ss2)
                               (ss_client ss2) (ss_thread ss2)) ;
   do h2 <- session_attr "chat_history" ss_chat_history ;
   show_on_screen (st_markdown h2))%app.

(** Lines 139-143.  [st.session_state.get("thread")] is truthy when the key
    is there and holds a thread. *)
Definition cleanup : APP unit :=
  (do ss <- get_session ;
   exec (match ss_thread ss with
         | Some (Some _) =>
             do agent <- session_attr "agent" ss_agent ;
             exec call_service (AssistantsDelete (agent_id agent))
                    (fun r before =>
                       assistants_delete r before (agent_id agent)) ;
             do th <- session_attr "thread" ss_thread ;
             match th with
             | Some t =>
                 call_service (ThreadDelete t)
                   (fun r before => thread_delete r before t)
             | None => fun s => (Raise (AttributeError "delete"), s)
             end
         | _ => Ap.ret tt
         end) ;
   set_session empty_session)%app.

(** Lines 111-119: the keys that are missing are set, the agent being
    created when there is none. *)
Definition ensure_session : APP unit :=
  (do ss <- get_session ;
   exec (match ss_chat_history ss with
         | None => set_session (mkSession (Some "") (ss_agent ss)
                                          (ss_client ss) (ss_thread ss))
         | Some _ => Ap.ret tt
         end) ;
   do ss1 <- get_session ;
   match ss_agent ss1 with
   | None =>
       exec show_on_screen
              (st_info "Initializing agent and uploading files. Please wait...") ;
       do made <- initialize_agent ;
       do ss2 <- get_session ;
       exec set_session (mkSession (ss_chat_history ss2) (Some (fst made))
                                   (Some (snd made)) (Some None)) ;
       show_on_screen (st_success "Agent initialized.")
   | Some _ => Ap.ret tt
   end)%app.

(** One run of the script, from the title to the cleanup button. *)
Definition script_run (inp : Inputs) : APP unit :=
  (exec show_on_screen (st_title "Azure Assistant Agent Streamlit App") ;
   exec ensure_session ;
   let user_input := user_input_box inp in
   exec (if submit_button inp && negb (bool_decide (user_input = ""))
         then
           if bool_decide (lower user_input = "exit")
           then show_on_screen
                  (st_info "Exiting conversation. You can now clean up resources.")
           else process_query user_input
         else Ap.ret tt) ;
   if cleanup_button inp
   then exec cleanup ; show_on_screen (st_success "Resources cleaned up.")
   else Ap.ret tt)%app.

(** The runs of a session one after the other; a run that raised has
    stopped there, and the next run starts from what it left. *)
Fixpoint run_session (inputs : list Inputs) (s : App) : App :=
  match inputs with
  | [] => s
  | inp :: rest => run_session rest (snd (script_run inp s))
  end.

(** ** Properties of computations of the script *)

(** A computation only ever extends the chat history it finds, whether it
    returns or raises. *)
Definition grows_history {A} (m : APP A) : Prop :=
  forall (s : App) (h : string),
    ss_chat_history (session s) = Some h ->
    exists more : string,
      ss_chat_history (session (snd (m s))) = Some (h ++ more).

(** ** A small installation, for the examples *)

Module Demo.

Definition t1 : AssistantAgentThread := {| thread_id := "thread-1" |}.

(** An agent that answers every message with one line of the assistant, on
    the thread [t1], and serves one byte for every file. *)
Definition core : AzureAssistantAgent :=
  {| invoke_stream := fun _ _ =>
       [ {| metadata := ∅; content := "42"; role_attr := AttrValue "assistant";
            items := []; thread := Some t1 |} ];
     files_content := fun _ => Ok [Byte.x2a] |}.

(** A service that accepts everything. *)
Definition service : Remote :=
  {| setup_resources := Ok "gpt-4o";
     files_create := fun before _ _ =>
       Ok (match before with [] => "file-1" | _ => "file-2" end);
     assistants_create := fun _ _ => Ok ("asst-1", core);
     assistants_delete := fun _ _ => Ok tt;
     thread_delete := fun _ _ => Ok tt |}.

(** A service that refuses to delete assistants. *)
Definition stubborn_service : Remote :=
  {| setup_resources := Ok "gpt-4o";
     files_create := fun before _ _ =>
       Ok (match before with [] => "file-1" | _ => "file-2" end);
     assistants_create := fun _ _ => Ok ("asst-1", core);
     assistants_delete := fun _ _ => Raise (ServiceError "forbidden");
     thread_delete := fun _ _ => Ok tt |}.

Definition table_1 : list Byte.byte := [Byte.x61].
Definition table_2 : list Byte.byte := [Byte.x62].

(** The application started in [/repo/agents], with both tables in place
    and nothing in the session yet. *)
Definition fresh : App :=
  mkApp "/repo/agents"
        [(csv_file_path_1 "/repo/agents", table_1);
         (csv_file_path_2 "/repo/agents", table_2)]
        (fun _ => None) empty_session [] [] service.

(** The same, with the second table missing. *)
Definition incomplete : App :=
  mkApp "/repo/agents" [(csv_file_path_1 "/repo/agents", table_1)]
        (fun _ => None) empty_session [] [] service.

Definition the_agent : Agent :=
  {| agent_id := "asst-1";
     agent_definition := assistant_request "gpt-4o" ["file-1"; "file-2"];
     agent_core := core |}.

(** The application once the agent is there, before any query and after
    one, for a given service. *)
Definition ready (r : Remote) : App :=
  mkApp "/repo/agents" [] (fun _ => None)
        (mkSession (Some "") (Some the_agent) (Some AzureClient) (Some None))
        [] [] r.

Definition talking (r : Remote) : App :=
  mkApp "/repo/agents" [] (fun _ => None)
        (mkSession (Some "earlier") (Some the_agent) (Some AzureClient)
                   (Some (Some t1)))
        [] [] r.

Definition idle : Inputs :=
  {| user_input_box := ""; submit_button := false; cleanup_button := false |}.

Definition ask (q : string) : Inputs :=
  {| user_input_box := q; submit_button := true; cleanup_button := false |}.

Definition press_cleanup : Inputs :=
  {| user_input_box := ""; submit_button := false; cleanup_button := true |}.

End Demo.

(** ** Reading the pieces and the page *)

(** The texts among the pieces, in order. *)
Fixpoint texts_of (cs : list Chunk) : list string :=
  match cs with
  | [] => []
  | Text s :: rest => s :: texts_of rest
  | _ :: rest => texts_of rest
  end.

(** The strings of a list, one after the other. *)
Fixpoint join_all (ss : list string) : string :=
  match ss with
  | [] => ""
  | s :: rest => s ++ join_all rest
  end.



(** ** Basic facts *)

Lemma append_assoc (a b c : string) : (a ++ b) ++ c = a ++ (b ++ c).
Proof.
  induction a as [|ch a IH]; [reflexivity |].
  change (String ch ((a ++ b) ++ c) = String ch (a ++ (b ++ c))).
  now rewrite IH.
Qed.

Lemma append_empty_r (a : string) : a ++ "" = a.
Proof.
  induction a as [|ch a IH]; [reflexivity |].
  change (String ch (a ++ "") = String ch a).
  now rewrite IH.
Qed.

Lemma render_app (a b : list Chunk) : render (a ++ b) = render a ++ render b.
Proof.
  induction a as [|c a IH]; [reflexivity |].
  change (render_chunk c ++ render (a ++ b)
          = (render_chunk c ++ render a) ++ render b).
  now rewrite IH, append_assoc.
Qed.

Lemma scan_fences_app (o : bool) (a b : list Chunk) :
  scan_fences o (a ++ b)
  = match scan_fences o a with
    | Some o' => scan_fences o' b
    | None => None
    end.
Proof.
  revert o; induction a as [|c a IH]; intros o; [reflexivity |].
  destruct c, o; simpl; auto.
Qed.

(** One iteration never raises, and this is the state it leaves. *)
Lemma loop_body_spec (l : Locals) (response : Response) :
  loop_body l response
  = Ok (mkLocals (collected_responses l ++ render (emitted l response))
                 (file_ids l ++ referenced_file_ids response)
                 (current_is_code response)
                 (next_role l response)
                 (thread response)).
Proof.
  unfold loop_body, emitted, next_role, code_branch, text_branch,
    role_changed, hasattr_role, getattr_role, referenced_file_ids, py_ne.
  destruct l as [buf fids ic lr th].
  destruct (current_is_code response); destruct ic; cbn -[String.append];
    try (destruct (role_attr response) as [| |r]; cbn -[String.append];
         try (case_bool_decide as Heq; try discriminate Heq;
              try rewrite Heq; cbn -[String.append]));
    rewrite ?append_assoc, ?append_empty_r; reflexivity.
Qed.

Lemma scan_emitted (l : Locals) (response : Response) :
  scan_fences (is_code l) (emitted l response)
  = Some (current_is_code response).
Proof.
  unfold emitted.
  destruct (current_is_code response), (is_code l); simpl;
    try reflexivity;
    destruct (role_attr response); simpl; try reflexivity;
    destruct (py_ne _ _); reflexivity.
Qed.

(** The loop never raises; its final state extends the buffer by the
    rendering of the pieces appended, extends the identifier list by the
    identifiers of the responses in order, and its flag is the fence state
    of the pieces. *)
Lemma run_loop_spec (stream : list Response) : forall l : Locals,
  exists l' : Locals,
    run_loop l stream = Ok l'
    /\ collected_responses l'
       = collected_responses l ++ render (loop_trace l stream)
    /\ file_ids l'
       = (file_ids l ++ concat (map referenced_file_ids stream))%list
    /\ scan_fences (is_code l) (loop_trace l stream) = Some (is_code l').
Proof.
  induction stream as [|response rest IH]; intros l.
  - exists l. cbn -[String.append].
    rewrite append_empty_r, app_nil_r. auto.
  - pose proof (scan_emitted l response) as Hscan.
    cbn [run_loop loop_trace map concat].
    rewrite loop_body_spec in *. cbn [Exc.bind].
    match goal with |- context [run_loop ?l1 rest] =>
      destruct (IH l1) as (l' & Hrun & Hbuf & Hids & Hfence)
    end.
    exists l'. cbn [collected_responses file_ids is_code] in *.
    repeat split.
    + exact Hrun.
    + rewrite Hbuf, render_app, append_assoc. reflexivity.
    + rewrite Hids, <- app_assoc. reflexivity.
    + rewrite scan_fences_app, Hscan. exact Hfence.
Qed.

Lemma finish_buffer (l : Locals) :
  collected_responses (finish l)
  = collected_responses l ++ render (finish_trace l).
Proof.
  unfold finish, finish_trace. destruct (is_code l); cbn -[String.append].
  - unfold close_fence. now rewrite !append_assoc, append_empty_r.
  - now rewrite append_empty_r.
Qed.

Lemma aggregate_run (thread : option AssistantAgentThread)
    (stream : list Response) (l : Locals) :
  run_loop (init_locals thread) stream = Ok l ->
  aggregate thread stream = Ok (finish l).
Proof. intros H. unfold aggregate. now rewrite H. Qed.


(** *** The downloads *)

Lemma reported_env (w1 w2 : World) (agent : AzureAssistantAgent)
    (file_id : string) :
  cwd w1 = cwd w2 -> open_fault w1 = open_fault w2 ->
  reported w1 agent file_id = reported w2 agent file_id
  /\ saved w1 agent file_id = saved w2 agent file_id.
Proof.
  intros Hc Hf. unfold reported, saved, saved_path. now rewrite Hc, Hf.
Qed.

(** One download never raises: whatever goes wrong inside is caught and
    turned into a message on the page. *)
Lemma download_file_content_spec (agent : AzureAssistantAgent)
    (file_id : string) (w : World) :
  download_file_content agent file_id w
  = (Ok tt, mkWorld (cwd w) (disk w ++ saved w agent file_id)
                    (page w ++ reported w agent file_id) (open_fault w)).
Proof.
  unfold download_file_content, reported, saved, saved_path, error_message,
    Io.try_except, Io.bind, Io.lift, getcwd, write_file, write_page,
    image_page, Io.ret.
  destruct w as [d dk pg fault]; cbn [cwd disk page open_fault].
  destruct (files_content agent file_id) as [data|e];
    cbn [cwd disk page open_fault].
  - destruct (fault (path_join d (file_id ++ ".png"))) as [msg|];
      cbn [cwd disk page open_fault str_exn].
    + now rewrite app_nil_r.
    + destruct (endswith _ _); cbn [cwd disk page open_fault];
        rewrite <- ?app_assoc, ?app_nil_r; reflexivity.
  - now rewrite app_nil_r.
Qed.

Lemma for_each_download_spec (agent : AzureAssistantAgent)
    (ids : list string) : forall w : World,
  Io.for_each ids (download_file_content agent) w
  = (Ok tt, mkWorld (cwd w) (disk w ++ flat_map (saved w agent) ids)
                    (page w ++ flat_map (reported w agent) ids)
                    (open_fault w)).
Proof.
  induction ids as [|file_id rest IH]; intros w.
  - cbn. rewrite !app_nil_r. now destruct w.
  - cbn [Io.for_each flat_map]. unfold Io.bind.
    rewrite download_file_content_spec, IH.
    cbn [cwd disk page open_fault]. rewrite <- !app_assoc.
    reflexivity.
Qed.

Lemma download_response_image_spec (agent : AzureAssistantAgent)
    (ids : list string) (w : World) :
  download_response_image agent ids w
  = (Ok tt, mkWorld (cwd w) (disk w ++ flat_map (saved w agent) ids)
                    (page w ++ flat_map (reported w agent) ids)
                    (open_fault w)).
Proof.
  destruct ids as [|file_id rest].
  - cbn. rewrite !app_nil_r. now destruct w.
  - apply for_each_download_spec.
Qed.

(** *** Streams without code *)

(** From a state outside a code block, a stream of responses that are not
    code and refer to no file extends the buffer by the labelled
    concatenation that starts from the role labelled last. *)
Lemma prose_run (stream : list Response) : forall l : Locals,
  is_code l = false ->
  Forall (fun r => current_is_code r = false /\ referenced_file_ids r = [])
         stream ->
  exists l' : Locals,
    run_loop l stream = Ok l'
    /\ collected_responses l'
       = collected_responses l ++ labeled_concat (last_role l) stream
    /\ file_ids l' = file_ids l
    /\ is_code l' = false.
Proof.
  induction stream as [|response rest IH]; intros l Hic Hall.
  - exists l. cbn -[String.append]. now rewrite append_empty_r.
  - apply Forall_cons in Hall as [[Hcode Hrefs] Hrest].
    cbn [run_loop]. rewrite loop_body_spec. cbn [Exc.bind].
    edestruct IH as (l' & Hrun & Hbuf & Hids & Hic');
      [| exact Hrest | rewrite Hrun]; [exact Hcode |].
    exists l'. cbn [collected_responses file_ids last_role] in Hbuf, Hids.
    repeat split; try assumption.
    + rewrite Hbuf, append_assoc. f_equal.
      unfold emitted, next_role, py_ne. rewrite Hcode, Hic.
      cbn [labeled_concat]. unfold role_of.
      destruct (role_attr response) as [| |r];
        [| | case_bool_decide as Heq; [rewrite Heq |]];
        cbn [negb app render render_chunk];
        unfold role_label, py_format;
        rewrite ?append_assoc, ?append_empty_r; reflexivity.
    + rewrite Hids, Hrefs. apply app_nil_r.
Qed.

(** *** The identifiers collected *)

Lemma aggregate_file_ids (thread : option AssistantAgentThread)
    (stream : list Response) :
  exists l : Locals,
    aggregate thread stream = Ok l
    /\ file_ids l = concat (map referenced_file_ids stream).
Proof.
  destruct (run_loop_spec stream (init_locals thread))
    as (l & Hrun & _ & Hids & _).
  exists (finish l). split; [now apply aggregate_run |].
  unfold finish. destruct (is_code l); exact Hids.
Qed.


(** ** The aggregation *)

(** C1.  Every fence the aggregation opens is closed before it returns.
    At any point of the stream (after [pre], with [post] still to come) the
    buffer is the rendering of the pieces appended so far, the fence markers
    among them are well nested, and [is_code] says whether the last fence
    opened is still unclosed.  When the stream is exhausted the closing
    marker is appended exactly when [is_code] is set, so that no fence is
    left open in what is returned. *)
Theorem fences_closed_on_return (thread : option AssistantAgentThread)
    (pre post : list Response) :
  exists l lend : Locals,
    run_loop (init_locals thread) pre = Ok l
    /\ collected_responses l = render (loop_trace (init_locals thread) pre)
    /\ scan_fences false (loop_trace (init_locals thread) pre)
       = Some (is_code l)
    /\ run_loop (init_locals thread) (pre ++ post) = Ok lend
    /\ aggregate thread (pre ++ post) = Ok (finish lend)
    /\ collected_responses (finish lend)
       = collected_responses lend
           ++ (if is_code lend then close_fence else "")
    /\ collected_responses (finish lend)
       = render (loop_trace (init_locals thread) (pre ++ post)
                 ++ finish_trace lend)
    /\ scan_fences false (loop_trace (init_locals thread) (pre ++ post)
                          ++ finish_trace lend)
       = Some false.
Proof.
  set (l0 := init_locals thread).
  destruct (run_loop_spec pre l0) as (l & Hrun & Hbuf & _ & Hfence).
  destruct (run_loop_spec (pre ++ post) l0)
    as (lend & Hrun' & Hbuf' & _ & Hfence').
  exists l, lend. repeat split.
  - exact Hrun.
  - exact Hbuf.
  - exact Hfence.
  - exact Hrun'.
  - now apply aggregate_run.
  - unfold finish. destruct (is_code lend); [reflexivity |].
    now rewrite append_empty_r.
  - rewrite finish_buffer, Hbuf', render_app. reflexivity.
  - rewrite scan_fences_app. change (is_code l0) with false in Hfence'.
    rewrite Hfence'. unfold finish_trace.
    destruct (is_code lend); reflexivity.
Qed.

(** C2.  The identifiers collected by the aggregation are the identifiers of
    the responses, response after response in arrival order and with their
    duplicates, whatever the responses are (code or not); this is the list
    handed to [download_response_image].  Scenario C gives f1, f2, f1. *)
Theorem file_ids_in_arrival_order (thread : option AssistantAgentThread)
    (stream : list Response) :
  (exists l : Locals,
     aggregate thread stream = Ok l
     /\ file_ids l = concat (map referenced_file_ids stream))
  /\ (exists l : Locals,
        aggregate thread Scenario.C = Ok l
        /\ file_ids l = ["f1"; "f2"; "f1"]).
Proof.
  split.
  - apply aggregate_file_ids.
  - eexists. split; [vm_compute; reflexivity | reflexivity].
Qed.

(** C4.  Scenario B: two code responses, [print(1)] and a line feed, then
    the text [done] of the assistant, give the document with the opening
    fence, the two code texts, the closing fence and a fresh role label in
    front of [done], and no file identifier. *)
Theorem scenario_B (thread : option AssistantAgentThread) :
  exists l : Locals,
    aggregate thread Scenario.B = Ok l
    /\ collected_responses l = Scenario.B_text
    /\ collected_responses l
       = open_fence ++ "print(1)" ++ LF ++ close_fence
           ++ (LF ++ "**assistant:** ") ++ "done"
    /\ file_ids l = [].
Proof.
  eexists. split; [vm_compute; reflexivity |].
  repeat split; vm_compute; reflexivity.
Qed.

(** C10.  When the stream delivers nothing, the document is the empty
    string, no identifier is collected, nothing is downloaded or shown, and
    the thread passed in is returned as it is. *)
Theorem empty_stream (user_input : string) (agent : AzureAssistantAgent)
    (thread : option AssistantAgentThread) (w : World) :
  invoke_stream agent user_input thread = [] ->
  aggregate thread [] = Ok (init_locals thread)
  /\ collected_responses (init_locals thread) = ""
  /\ file_ids (init_locals thread) = []
  /\ process_user_input user_input agent thread w = (Ok ("", thread), w).
Proof.
  intros Hstream. repeat split.
  unfold process_user_input. rewrite Hstream. reflexivity.
Qed.

(** C3.  For a stream in which no response is code and none refers to a
    file, the aggregation collects no identifier and returns the labelled
    concatenation of the role-transition rule: the texts in order, with the
    label of a role in front of a text exactly when the response has a role
    that differs from the role labelled last. *)
Theorem prose_only_document (thread : option AssistantAgentThread)
    (stream : list Response) :
  Forall (fun r => current_is_code r = false) stream ->
  Forall (fun r => referenced_file_ids r = []) stream ->
  exists l : Locals,
    aggregate thread stream = Ok l
    /\ collected_responses l = labeled_concat None stream
    /\ file_ids l = [].
Proof.
  intros Hcode Hrefs.
  assert (Hall : Forall (fun r => current_is_code r = false
                                  /\ referenced_file_ids r = []) stream).
  { rewrite Forall_forall in *. intros r Hr. split; auto. }
  destruct (prose_run stream (init_locals thread) eq_refl Hall)
    as (l & Hrun & Hbuf & Hids & Hic).
  exists (finish l). split; [now apply aggregate_run |].
  unfold finish. rewrite Hic. split; assumption.
Qed.

(** Scenario A is an instance: one label for the two texts of the
    assistant. *)
Lemma prose_only_document_witness :
  exists l : Locals,
    aggregate None Scenario.A = Ok l
    /\ collected_responses l = LF ++ "**assistant:** Hello world"
    /\ file_ids l = [].
Proof.
  apply (prose_only_document None Scenario.A).
  - repeat constructor.
  - repeat constructor.
Defined.

(** Scenario with an agent that streams nothing. *)
Lemma empty_stream_witness :
  process_user_input "hello"
    {| invoke_stream := fun _ _ => []; files_content := fun _ => Ok [] |}
    (Some {| thread_id := "t1" |})
    (mkWorld "/app" [] [] (fun _ => None))
  = (Ok ("", Some {| thread_id := "t1" |}),
     mkWorld "/app" [] [] (fun _ => None)).
Proof.
  apply (empty_stream "hello"
           {| invoke_stream := fun _ _ => []; files_content := fun _ => Ok [] |}
           (Some {| thread_id := "t1" |})
           (mkWorld "/app" [] [] (fun _ => None))).
  reflexivity.
Defined.

(** C5, as the specification states it, fails: entering a code block does
    not clear [last_role].  After the assistant has been labelled, a code
    response leaves [last_role] at the assistant. *)
Lemma entering_code_clears_role_counterexample :
  ~ (forall (thread : option AssistantAgentThread) (stream : list Response)
            (response : Response) (l l' : Locals),
       run_loop (init_locals thread) stream = Ok l ->
       is_code l = false ->
       current_is_code response = true ->
       loop_body l response = Ok l' ->
       collected_responses l'
       = collected_responses l ++ open_fence ++ content response
       /\ is_code l' = true
       /\ last_role l' = None).
Proof.
  intros H.
  destruct (H None [Scenario.prose "Hello " "assistant" []]
              (Scenario.code "print(1)")
              (mkLocals (LF ++ "**assistant:** Hello ") [] false
                        (Some "assistant") None)
              (mkLocals (LF ++ "**assistant:** Hello " ++ open_fence
                            ++ "print(1)") [] true
                        (Some "assistant") None))
    as (_ & _ & Hrole); try (vm_compute; reflexivity).
  discriminate Hrole.
Qed.

(** C5, amended.  A code response met outside a code block appends the
    opening fence (and then its text), sets [is_code], and leaves
    [last_role] as it was; [last_role] is cleared later, by the response
    that is not code and closes the block. *)
Theorem entering_code_block (l : Locals) (response next : Response) :
  is_code l = false ->
  current_is_code response = true ->
  current_is_code next = false ->
  exists l' l'' : Locals,
    loop_body l response = Ok l'
    /\ collected_responses l'
       = collected_responses l ++ open_fence ++ content response
    /\ is_code l' = true
    /\ last_role l' = last_role l
    /\ loop_body l' next = Ok l''
    /\ is_code l'' = false
    /\ last_role l'' = role_of next.
Proof.
  intros Hic Hcode Hnext.
  rewrite loop_body_spec. do 2 eexists. split; [reflexivity |].
  rewrite loop_body_spec.
  cbn [collected_responses is_code last_role].
  unfold emitted, next_role. rewrite Hic, Hcode, Hnext.
  cbn [negb app render render_chunk collected_responses is_code last_role].
  rewrite append_empty_r.
  repeat split; reflexivity.
Qed.

Lemma entering_code_block_witness :
  exists l' l'' : Locals,
    loop_body (mkLocals "hi" [] false (Some "assistant") None)
              (Scenario.code "print(1)") = Ok l'
    /\ collected_responses l' = "hi" ++ open_fence ++ "print(1)"
    /\ is_code l' = true
    /\ last_role l' = Some "assistant"
    /\ loop_body l' (Scenario.prose "done" "assistant" []) = Ok l''
    /\ is_code l'' = false
    /\ last_role l'' = Some "assistant".
Proof.
  apply (entering_code_block
           (mkLocals "hi" [] false (Some "assistant") None)
           (Scenario.code "print(1)")
           (Scenario.prose "done" "assistant" []));
    vm_compute; reflexivity.
Defined.



(** C7.  A code response never appends a role label: whatever the roles of
    two code responses in a row, nothing comes between their texts, the
    outcome does not depend on their [role] attributes, and [last_role] is
    left as it was. *)
Theorem code_never_labels (l : Locals) (r1 r2 : Response) :
  current_is_code r1 = true ->
  current_is_code r2 = true ->
  exists l1 l2 : Locals,
    loop_body l r1 = Ok l1
    /\ loop_body l1 r2 = Ok l2
    /\ collected_responses l1
       = collected_responses l
           ++ (if is_code l then "" else open_fence) ++ content r1
    /\ collected_responses l2 = collected_responses l1 ++ content r2
    /\ (forall role : string,
          ~ In (RoleLabel role) (emitted l r1)
          /\ ~ In (RoleLabel role) (emitted l1 r2))
    /\ (forall ra1 ra2 : RoleAttr,
          loop_body l (with_role ra1 r1) = Ok l1
          /\ loop_body l1 (with_role ra2 r2) = Ok l2)
    /\ last_role l2 = last_role l.
Proof.
  intros Hc1 Hc2.
  assert (Hw : forall ra r, current_is_code (with_role ra r)
                            = current_is_code r) by reflexivity.
  rewrite loop_body_spec. do 2 eexists. split; [reflexivity |].
  rewrite loop_body_spec. split; [reflexivity |].
  unfold emitted, next_role.
  cbn [collected_responses is_code last_role]. rewrite Hc1, Hc2.
  repeat split.
  - destruct (is_code l); cbn [negb app render render_chunk];
      now rewrite append_empty_r.
  - cbn [negb app render render_chunk]. now rewrite append_empty_r.
  - destruct (is_code l); cbn; intuition discriminate.
  - cbn; intuition discriminate.
  - rewrite loop_body_spec. unfold emitted, next_role.
    rewrite Hw, Hc1. reflexivity.
  - rewrite loop_body_spec. unfold emitted, next_role.
    rewrite Hw, Hc2. reflexivity.
Qed.

(** Two code responses with different roles, met after the assistant was
    labelled. *)
Lemma code_never_labels_witness :
  exists l1 l2 : Locals,
    loop_body (mkLocals "hi" [] false (Some "assistant") None)
              (with_role (AttrValue "tool") (Scenario.code "print(1)"))
      = Ok l1
    /\ loop_body l1 (with_role (AttrValue "user") (Scenario.code "x")) = Ok l2
    /\ collected_responses l1 = "hi" ++ open_fence ++ "print(1)"
    /\ collected_responses l2 = collected_responses l1 ++ "x"
    /\ last_role l2 = Some "assistant".
Proof.
  destruct (code_never_labels
              (mkLocals "hi" [] false (Some "assistant") None)
              (with_role (AttrValue "tool") (Scenario.code "print(1)"))
              (with_role (AttrValue "user") (Scenario.code "x"))
              eq_refl eq_refl)
    as (l1 & l2 & H1 & H2 & Hb1 & Hb2 & _ & _ & Hrole).
  exists l1, l2. auto.
Defined.

(** C8.  The aggregation returns for every stream, and so does
    [process_user_input] whatever the file service and the disk do.  A
    response whose metadata has no [code] entry is treated as one whose
    entry is false, and a response that is not code and whose [role] is
    missing or [None] appends its text without a label and fails in
    nothing. *)
Theorem aggregation_total (user_input : string) (agent : AzureAssistantAgent)
    (thread : option AssistantAgentThread) (w : World)
    (stream : list Response) (l : Locals) (md : gmap string bool)
    (text : string) (ra : RoleAttr) (its : list Item)
    (th : option AssistantAgentThread) :
  (exists lend : Locals, aggregate thread stream = Ok lend)
  /\ (exists (doc : string) (th' : option AssistantAgentThread) (w' : World),
        process_user_input user_input agent thread w = (Ok (doc, th'), w'))
  /\ current_is_code
       {| metadata := delete "code" md; content := text; role_attr := ra;
          items := its; thread := th |} = false
  /\ loop_body l {| metadata := delete "code" md; content := text; role_attr := ra;
                    items := its; thread := th |}
     = loop_body l {| metadata := <["code" := false]> md; content := text;
                      role_attr := ra; items := its; thread := th |}
  /\ loop_body l {| metadata := delete "code" md; content := text;
                    role_attr := AttrMissing; items := its; thread := th |}
     = Ok (unlabelled l text its th)
  /\ loop_body l {| metadata := delete "code" md; content := text;
                    role_attr := AttrNone; items := its; thread := th |}
     = Ok (unlabelled l text its th).
Proof.
  assert (Habs : forall ra0,
            current_is_code {| metadata := delete "code" md; content := text;
                               role_attr := ra0; items := its;
                               thread := th |} = false).
  { intros ra0. unfold current_is_code. cbn [metadata].
    now rewrite lookup_delete_eq. }
  assert (Hfalse : current_is_code
                     {| metadata := <["code" := false]> md; content := text;
                        role_attr := ra; items := its; thread := th |}
                   = false).
  { unfold current_is_code. cbn [metadata]. now rewrite lookup_insert_eq. }
  split; [| split; [| split; [| split; [| split]]]].
  - destruct (run_loop_spec stream (init_locals thread)) as (l' & Hrun & _).
    exists (finish l'). now apply aggregate_run.
  - unfold process_user_input, Io.bind, Io.lift.
    destruct (run_loop_spec (invoke_stream agent user_input thread)
                (init_locals thread)) as (l' & Hrun & _).
    rewrite (aggregate_run _ _ _ Hrun), download_response_image_spec.
    do 3 eexists. reflexivity.
  - apply Habs.
  - rewrite !loop_body_spec. unfold emitted, next_role.
    rewrite Habs, Hfalse. reflexivity.
  - rewrite loop_body_spec. unfold emitted, next_role, unlabelled.
    rewrite Habs. cbn [role_attr content items referenced_file_ids].
    destruct (is_code l); cbn [app render render_chunk];
      now rewrite append_empty_r.
  - rewrite loop_body_spec. unfold emitted, next_role, unlabelled.
    rewrite Habs. cbn [role_attr content items referenced_file_ids].
    destruct (is_code l); cbn [app render render_chunk];
      now rewrite append_empty_r.
Qed.

(** ** The downloads *)



(** ** More about the aggregation loop *)



Lemma texts_of_app (a b : list Chunk) :
  texts_of (a ++ b) = (texts_of a ++ texts_of b)%list.
Proof.
  induction a as [|c a IH]; [reflexivity |].
  destruct c; cbn; now rewrite ?IH.
Qed.

Lemma texts_of_emitted (l : Locals) (response : Response) :
  texts_of (emitted l response) = [content response].
Proof.
  unfold emitted.
  destruct (current_is_code response), (is_code l); cbn; try reflexivity;
    destruct (role_attr response); cbn; try reflexivity;
    destruct (py_ne _ _); reflexivity.
Qed.

Lemma texts_of_loop_trace (stream : list Response) : forall l : Locals,
  texts_of (loop_trace l stream) = map content stream.
Proof.
  induction stream as [|response rest IH]; intros l; [reflexivity |].
  cbn [loop_trace map]. rewrite texts_of_app, texts_of_emitted.
  rewrite loop_body_spec, IH. reflexivity.
Qed.

Lemma aggregate_pieces (th : option AssistantAgentThread)
    (stream : list Response) :
  exists l : Locals,
    run_loop (init_locals th) stream = Ok l
    /\ aggregate th stream = Ok (finish l)
    /\ collected_responses (finish l)
       = render (loop_trace (init_locals th) stream ++ finish_trace l)
    /\ scan_fences false (loop_trace (init_locals th) stream
                          ++ finish_trace l) = Some false.
Proof.
  destruct (run_loop_spec stream (init_locals th))
    as (l & Hrun & Hbuf & _ & Hfence).
  exists l. repeat split.
  - exact Hrun.
  - now apply aggregate_run.
  - rewrite finish_buffer, Hbuf, render_app. reflexivity.
  - rewrite scan_fences_app.
    change (is_code (init_locals th)) with false in Hfence.
    rewrite Hfence. unfold finish_trace. destruct (is_code l); reflexivity.
Qed.

(** X2.  The document is made of pieces: the texts of the responses, each of
    them once, unchanged and in arrival order, and between them nothing but
    well-nested fence markers and role labels. *)
Theorem texts_kept_verbatim (th : option AssistantAgentThread)
    (stream : list Response) :
  exists (l : Locals) (pieces : list Chunk),
    aggregate th stream = Ok l
    /\ collected_responses l = render pieces
    /\ texts_of pieces = map content stream
    /\ scan_fences false pieces = Some false.
Proof.
  destruct (aggregate_pieces th stream) as (l & Hrun & Hagg & Hbuf & Hscan).
  exists (finish l),
    (loop_trace (init_locals th) stream ++ finish_trace l)%list.
  repeat split; try assumption.
  rewrite texts_of_app, texts_of_loop_trace.
  unfold finish_trace. destruct (is_code l); cbn; now rewrite app_nil_r.
Qed.

(** X3.  The first response with a role after a code block is labelled whatever
    role was labelled before the block, the same role included: the closing
    fence, the label and the text are appended, in this order. *)
Theorem label_after_code_block (l : Locals) (response : Response)
    (role : string) :
  is_code l = true ->
  current_is_code response = false ->
  role_attr response = AttrValue role ->
  loop_body l response
  = Ok (mkLocals (collected_responses l ++ close_fence
                    ++ role_label (Some role) ++ content response)
                 (file_ids l ++ referenced_file_ids response)
                 false (Some role) (thread response)).
Proof.
  intros Hic Hcode Hrole. rewrite loop_body_spec.
  unfold emitted, next_role, py_ne. rewrite Hic, Hcode, Hrole.
  rewrite bool_decide_eq_false_2 by discriminate.
  cbn [negb app render render_chunk]. now rewrite append_empty_r.
Qed.

Lemma label_after_code_block_witness :
  loop_body (mkLocals "x" [] true (Some "assistant") None)
            (Scenario.prose "done" "assistant" [])
  = Ok (mkLocals ("x" ++ close_fence ++ LF ++ "**assistant:** " ++ "done")
                 [] false (Some "assistant") None).
Proof.
  apply (label_after_code_block
           (mkLocals "x" [] true (Some "assistant") None)
           (Scenario.prose "done" "assistant" []) "assistant");
    reflexivity.
Defined.

Lemma label_in_emitted (l : Locals) (response : Response) (role : string) :
  In (RoleLabel role) (emitted l response) ->
  current_is_code response = false /\ role_attr response = AttrValue role.
Proof.
  unfold emitted.
  destruct (current_is_code response), (is_code l); cbn;
    try (intuition discriminate);
    destruct (role_attr response) as [| |r]; cbn;
    try (intuition discriminate);
    destruct (py_ne _ _); cbn; intuition (try discriminate); congruence.
Qed.

Lemma label_in_loop_trace (stream : list Response) (role : string) :
  forall l : Locals,
    In (RoleLabel role) (loop_trace l stream) ->
    exists r : Response,
      In r stream /\ current_is_code r = false
      /\ role_attr r = AttrValue role.
Proof.
  induction stream as [|response rest IH]; intros l Hin; [destruct Hin |].
  cbn [loop_trace] in Hin. rewrite loop_body_spec in Hin.
  apply in_app_or in Hin as [Hin | Hin].
  - apply label_in_emitted in Hin. exists response. cbn. tauto.
  - apply IH in Hin as (r & Hr & Hprops). exists r. cbn. tauto.
Qed.

(** X4.  A role label in the document always comes from a response that is not
    code and carries that very role: split the document into the texts of
    the responses and what stands between them, and every label there has
    such a response; a stream in which no response has a role, or in which
    all responses are code, is never labelled. *)
Theorem labels_come_from_roles (th : option AssistantAgentThread)
    (stream : list Response) :
  exists (l : Locals) (pieces : list Chunk),
    aggregate th stream = Ok l
    /\ collected_responses l = render pieces
    /\ texts_of pieces = map content stream
    /\ forall role : string,
         In (RoleLabel role) pieces ->
         exists r : Response,
           In r stream /\ current_is_code r = false
           /\ role_attr r = AttrValue role.
Proof.
  destruct (aggregate_pieces th stream) as (l & Hrun & Hagg & Hbuf & _).
  exists (finish l),
    (loop_trace (init_locals th) stream ++ finish_trace l)%list.
  split; [exact Hagg |]. split; [exact Hbuf |]. split.
  { rewrite texts_of_app, texts_of_loop_trace.
    unfold finish_trace. destruct (is_code l); cbn; now rewrite app_nil_r. }
  intros role Hin. apply in_app_or in Hin as [Hin | Hin].
  - now apply label_in_loop_trace in Hin.
  - unfold finish_trace in Hin.
    destruct (is_code l); cbn in Hin; intuition discriminate.
Qed.

Lemma code_run (stream : list Response) : forall l : Locals,
  is_code l = true ->
  Forall (fun r => current_is_code r = true) stream ->
  exists l' : Locals,
    run_loop l stream = Ok l'
    /\ collected_responses l'
       = collected_responses l ++ join_all (map content stream)
    /\ is_code l' = true.
Proof.
  induction stream as [|response rest IH]; intros l Hic Hall.
  - exists l. cbn -[String.append]. now rewrite append_empty_r.
  - apply Forall_cons in Hall as [Hcode Hrest].
    cbn [run_loop]. rewrite loop_body_spec. cbn [Exc.bind].
    match goal with |- context [run_loop ?l1 rest] =>
      destruct (IH l1 Hcode Hrest) as (l' & Hrun & Hbuf & Hic')
    end.
    exists l'. repeat split; try assumption.
    rewrite Hbuf. cbn [collected_responses map join_all].
    unfold emitted. rewrite Hcode, Hic.
    cbn [negb app render render_chunk].
    now rewrite append_empty_r, !append_assoc.
Qed.

(** X5.  A stream that is not empty and made of code responses only gives one
    fenced block: the opening fence, the texts one after the other, and the
    closing fence. *)
Theorem code_only_document (th : option AssistantAgentThread)
    (stream : list Response) :
  stream <> [] ->
  Forall (fun r => current_is_code r = true) stream ->
  exists l : Locals,
    aggregate th stream = Ok l
    /\ collected_responses l
       = open_fence ++ join_all (map content stream) ++ close_fence.
Proof.
  intros Hne Hall. destruct stream as [|response rest]; [congruence |].
  apply Forall_cons in Hall as [Hcode Hrest].
  unfold aggregate. cbn [run_loop]. rewrite loop_body_spec. cbn [Exc.bind].
  match goal with |- context [run_loop ?l1 rest] =>
    destruct (code_run rest l1 Hcode Hrest) as (l' & Hrun & Hbuf & Hic')
  end.
  rewrite Hrun. cbn [Exc.bind Exc.ret]. exists (finish l').
  split; [reflexivity |].
  unfold finish. rewrite Hic'. cbn [collected_responses] in *.
  rewrite Hbuf. unfold emitted. rewrite Hcode.
  cbn [init_locals is_code negb app render render_chunk map join_all
       collected_responses].
  rewrite append_empty_r, !append_assoc. reflexivity.
Qed.

Lemma code_only_document_witness :
  exists l : Locals,
    aggregate None [Scenario.code "a = 1"; Scenario.code LF;
                    Scenario.code "print(a)"] = Ok l
    /\ collected_responses l
       = open_fence ++ ("a = 1" ++ LF ++ "print(a)") ++ close_fence.
Proof.
  apply (code_only_document None
           [Scenario.code "a = 1"; Scenario.code LF;
            Scenario.code "print(a)"]).
  - discriminate.
  - repeat constructor.
Defined.

Lemma run_loop_app (a b : list Response) : forall l : Locals,
  run_loop l (a ++ b)
  = Exc.bind (run_loop l a) (fun la => run_loop la b).
Proof.
  induction a as [|response rest IH]; intros l; [reflexivity |].
  cbn [app run_loop]. rewrite loop_body_spec. cbn [Exc.bind]. apply IH.
Qed.

(** X6.  What has been streamed so far is never revised: the state reached after
    a prefix of the stream is all the rest of the loop depends on, and the
    buffer and the identifier list at the end extend those reached after the
    prefix. *)
Theorem buffer_only_grows (l : Locals) (pre post : list Response) :
  exists (la lab : Locals) (more : string) (ids : list string),
    run_loop l pre = Ok la
    /\ run_loop la post = Ok lab
    /\ run_loop l (pre ++ post) = Ok lab
    /\ collected_responses lab = collected_responses la ++ more
    /\ file_ids lab = (file_ids la ++ ids)%list.
Proof.
  destruct (run_loop_spec pre l) as (la & Hpre & _).
  destruct (run_loop_spec post la) as (lab & Hpost & Hbuf & Hids & _).
  exists la, lab. do 2 eexists. repeat split.
  - exact Hpre.
  - exact Hpost.
  - rewrite run_loop_app, Hpre. exact Hpost.
  - exact Hbuf.
  - exact Hids.
Qed.

(** ** More about the downloads *)

Lemma rev_app_acc (s acc : string) :
  String.rev_app s acc = String.rev_app s "" ++ acc.
Proof.
  revert acc. induction s as [|c s IH]; intros acc; [reflexivity |].
  cbn [String.rev_app]. rewrite IH, (IH (String c "")).
  now rewrite append_assoc.
Qed.

Lemma rev_append (a b : string) :
  String.rev (a ++ b) = String.rev b ++ String.rev a.
Proof.
  unfold String.rev. revert b. induction a as [|c a IH]; intros b.
  - cbn. now rewrite append_empty_r.
  - change (String.rev_app (a ++ b) (String c "")
            = String.rev_app b "" ++ String.rev_app a (String c "")).
    rewrite rev_app_acc, IH, (rev_app_acc a (String c "")).
    now rewrite append_assoc.
Qed.








(** X8.  The page never announces a file that was not written: the message
    "File saved to" appears for an identifier exactly when its bytes were
    received and written, and the download itself never raises. *)
Theorem no_false_success (agent : AzureAssistantAgent) (file_id : string)
    (w : World) :
  exists (events : list UiEvent) (files : list (string * list Byte.byte)),
    download_file_content agent file_id w
    = (Ok tt, mkWorld (cwd w) (disk w ++ files) (page w ++ events)
                      (open_fault w))
    /\ ((exists path : string, In (st_write ("File saved to: " ++ path)) events)
        <-> exists data : list Byte.byte,
              files_content agent file_id = Ok data
              /\ files = [(saved_path w file_id, data)])
    /\ (files = [] \/ exists data : list Byte.byte,
                       files = [(saved_path w file_id, data)]).
Proof.
  exists (reported w agent file_id), (saved w agent file_id).
  split; [apply download_file_content_spec |].
  unfold reported, saved, error_message.
  destruct (files_content agent file_id) as [data|e].
  - destruct (open_fault w (saved_path w file_id)) as [msg|].
    + split; [| now left]. split.
      * intros (path & [Heq | []]). discriminate Heq.
      * intros (d & _ & Hfiles). discriminate Hfiles.
    + split; [| right; eauto]. split; [eauto |].
      intros _. eexists. now left.
  - split; [| now left]. split.
    + intros (path & [Heq | []]). discriminate Heq.
    + intros (d & Hok & _). discriminate Hok.
Qed.




(** ** The paths of the tables *)

Lemma upto_last_sep_no_sep (name : string) :
  no_sep name = true -> upto_last_sep name = "".
Proof.
  induction name as [|c name IH]; [reflexivity |].
  cbn [no_sep upto_last_sep]. intros [Hc Hrest]%andb_prop.
  rewrite (IH Hrest). now destruct (Ascii.eqb c "/").
Qed.

Lemma upto_last_sep_append (p name : string) :
  no_sep name = true ->
  upto_last_sep (p ++ "/" ++ name) = p ++ "/".
Proof.
  intros Hname. induction p as [|c p IH].
  - change ("" ++ "/" ++ name) with (String "/" name).
    cbn [upto_last_sep]. now rewrite (upto_last_sep_no_sep name Hname).
  - change (String c p ++ "/" ++ name) with (String c (p ++ "/" ++ name)).
    cbn [upto_last_sep]. rewrite IH.
    destruct p; reflexivity.
Qed.

Lemma rstrip_sep_append (q : string) (c : ascii) :
  c <> "/"%char ->
  rstrip_sep ((q ++ String c "") ++ "/") = q ++ String c "".
Proof.
  intros Hc. apply Ascii.eqb_neq in Hc.
  induction q as [|a q IH].
  - change (("" ++ String c "") ++ "/") with (String c (String "/" "")).
    change ("" ++ String c "") with (String c "").
    cbn [rstrip_sep]. change (Ascii.eqb "/" "/") with true.
    cbn iota. now rewrite Hc.
  - change ((String a q ++ String c "") ++ "/")
      with (String a ((q ++ String c "") ++ "/")).
    cbn [rstrip_sep]. rewrite IH. destruct q; reflexivity.
Qed.

Lemma all_sep_append (q : string) (c : ascii) (rest : string) :
  c <> "/"%char -> all_sep ((q ++ String c "") ++ rest) = false.
Proof.
  intros Hc. apply Ascii.eqb_neq in Hc.
  induction q as [|a q IH].
  - change (("" ++ String c "") ++ rest) with (String c rest).
    cbn [all_sep]. now rewrite Hc.
  - change ((String a q ++ String c "") ++ rest)
      with (String a ((q ++ String c "") ++ rest)).
    cbn [all_sep]. rewrite IH. apply andb_false_r.
Qed.

Lemma dirname_append (q : string) (c : ascii) (name : string) :
  c <> "/"%char -> no_sep name = true ->
  dirname ((q ++ String c "") ++ "/" ++ name) = q ++ String c "".
Proof.
  intros Hc Hname. unfold dirname.
  rewrite (upto_last_sep_append _ _ Hname), (all_sep_append _ _ _ Hc).
  rewrite bool_decide_eq_false_2 by (destruct q; discriminate).
  cbn [negb andb]. now apply rstrip_sep_append.
Qed.

Lemma endswith_last_char (q : string) (c : ascii) :
  c <> "/"%char -> endswith (q ++ String c "") "/" = false.
Proof.
  intros Hc. unfold endswith. rewrite rev_append.
  change (String.rev "/") with "/".
  change (String.rev (String c "") ++ String.rev q)
    with (String c (String.rev q)).
  cbn [String.prefix].
  destruct (ascii_dec "/" c); [congruence | reflexivity].
Qed.

Lemma path_join_plain (q : string) (c : ascii) (x : ascii) (name : string) :
  c <> "/"%char -> x <> "/"%char ->
  path_join (q ++ String c "") (String x name)
  = (q ++ String c "") ++ "/" ++ String x name.
Proof.
  intros Hc Hx. unfold path_join, startswith.
  cbn [String.prefix]. destruct (ascii_dec "/" x); [congruence |].
  rewrite (endswith_last_char q c Hc).
  rewrite bool_decide_eq_false_2 by (destruct q; discriminate).
  reflexivity.
Qed.

(** X10.  The tables are looked up beside the working directory: started in the
    directory [name] of a parent that does not end in a separator, the
    script reads them from [data_processing/csv_tables] under that parent. *)
Theorem tables_under_the_parent (q : string) (c : ascii) (name : string) :
  c <> "/"%char ->
  no_sep name = true ->
  csv_file_path_1 ((q ++ String c "") ++ "/" ++ name)
  = (q ++ String c "")
      ++ "/data_processing/csv_tables/merged_analysis_of_financial_experience.csv"
  /\ csv_file_path_2 ((q ++ String c "") ++ "/" ++ name)
     = (q ++ String c "")
         ++ "/data_processing/csv_tables/merged_schedules_of_changes_in_net_pension_liability.csv".
Proof.
  intros Hc Hname. unfold csv_file_path_1, csv_file_path_2, parent_dir.
  rewrite (dirname_append q c name Hc Hname).
  rewrite (path_join_plain q c "d" "ata_processing" Hc) by discriminate.
  assert (Hjoin : forall a z x rest,
            z <> "/"%char -> x <> "/"%char ->
            path_join (a ++ String z "") (String x rest)
            = (a ++ String z "") ++ "/" ++ String x rest).
  { intros a z x rest Hz Hx. now apply path_join_plain. }
  change ((q ++ String c "") ++ "/" ++ "data_processing")
    with ((q ++ String c "") ++ "/data_processin" ++ String "g" "").
  rewrite <- !append_assoc.
  rewrite (Hjoin _ "g"%char "c"%char "sv_tables") by discriminate.
  change (((q ++ String c "") ++ "/data_processin") ++ "g")
    with (((q ++ String c "") ++ "/data_processin") ++ "g").
  rewrite !append_assoc.
  change ((q ++ String c "" ++ "/data_processin" ++ "g" ++ "/" ++ "csv_tables"))
    with ((q ++ String c "" ++ "/data_processing/csv_table" ++ String "s" "")).
  rewrite <- !append_assoc.
  split.
  - rewrite (Hjoin _ "s"%char "m"%char
               "erged_analysis_of_financial_experience.csv") by discriminate.
    rewrite !append_assoc. reflexivity.
  - rewrite (Hjoin _ "s"%char "m"%char
               "erged_schedules_of_changes_in_net_pension_liability.csv")
      by discriminate.
    rewrite !append_assoc. reflexivity.
Qed.

Lemma tables_under_the_parent_witness :
  csv_file_path_1 "/repo/agents"
  = "/repo/data_processing/csv_tables/merged_analysis_of_financial_experience.csv"
  /\ csv_file_path_2 "/repo/agents"
     = "/repo/data_processing/csv_tables/merged_schedules_of_changes_in_net_pension_liability.csv".
Proof.
  apply (tables_under_the_parent "/rep" "o"%char "agents");
    [discriminate | reflexivity].
Defined.

(** ** [initialize_agent] *)

Ltac app_fields :=
  cbn [app_cwd app_disk app_open_fault session screen calls remote
       cwd disk page open_fault fst snd
       ss_chat_history ss_agent ss_client ss_thread].

(** The outcome of [initialize_agent], case by case: the model is asked
    for, the first table read and uploaded, the second table read and
    uploaded, the assistant created; the first step that fails ends it. *)
Lemma initialize_agent_cases (s : App) :
  let p1 := csv_file_path_1 (app_cwd s) in
  let p2 := csv_file_path_2 (app_cwd s) in
  let after new := mkApp (app_cwd s) (app_disk s) (app_open_fault s)
                         (session s) (screen s) (calls s ++ new) (remote s) in
  initialize_agent s
  = match setup_resources (remote s) with
    | Raise e => (Raise e, s)
    | Ok model =>
        match disk_read (app_disk s) p1 with
        | None =>
            (Raise (OSError ("[Errno 2] No such file or directory: '" ++ p1
                             ++ "'")), s)
        | Some d1 =>
            match files_create (remote s) (calls s) p1 d1 with
            | Raise e => (Raise e, after [FilesCreate p1 d1])
            | Ok id1 =>
                match disk_read (app_disk s) p2 with
                | None =>
                    (Raise (OSError ("[Errno 2] No such file or directory: '"
                                     ++ p2 ++ "'")),
                     after [FilesCreate p1 d1])
                | Some d2 =>
                    match files_create (remote s)
                            (calls s ++ [FilesCreate p1 d1]) p2 d2 with
                    | Raise e =>
                        (Raise e, after [FilesCreate p1 d1; FilesCreate p2 d2])
                    | Ok id2 =>
                        let req := assistant_request model [id1; id2] in
                        match assistants_create (remote s)
                                (calls s ++ [FilesCreate p1 d1;
                                             FilesCreate p2 d2]) req with
                        | Raise e =>
                            (Raise e, after [FilesCreate p1 d1;
                                             FilesCreate p2 d2;
                                             AssistantsCreate req])
                        | Ok made =>
                            (Ok ({| agent_id := fst made;
                                    agent_definition := req;
                                    agent_core := snd made |}, AzureClient),
                             after [FilesCreate p1 d1; FilesCreate p2 d2;
                                    AssistantsCreate req])
                        end
                    end
                end
            end
        end
    end.
Proof.
  intros p1 p2 after. subst after.
  unfold initialize_agent, upload_tables, read_file, call_service,
    Ap.bind, Ap.ret.
  fold p1 p2.
  destruct (setup_resources (remote s)) as [model|e]; [| reflexivity].
  destruct (disk_read (app_disk s) p1) as [d1|]; [| reflexivity].
  app_fields.
  destruct (files_create (remote s) (calls s) p1 d1) as [id1|e];
    [| reflexivity].
  app_fields.
  destruct (disk_read (app_disk s) p2) as [d2|]; [| reflexivity].
  app_fields.
  destruct (files_create (remote s) (calls s ++ [FilesCreate p1 d1]) p2 d2)
    as [id2|e]; app_fields; rewrite <- ?app_assoc; cbn [app];
    [| reflexivity].
  destruct (assistants_create _ _ _) as [made|e]; reflexivity.
Qed.

Lemma initialize_agent_frame (s : App) :
  exists new : list ApiCall,
    snd (initialize_agent s)
    = mkApp (app_cwd s) (app_disk s) (app_open_fault s) (session s)
            (screen s) (calls s ++ new) (remote s).
Proof.
  rewrite initialize_agent_cases. cbv zeta.
  assert (Hsame : s = mkApp (app_cwd s) (app_disk s) (app_open_fault s)
                            (session s) (screen s) (calls s ++ [])
                            (remote s))
    by (rewrite app_nil_r; now destruct s).
  destruct (setup_resources (remote s)); [| now exists []].
  destruct (disk_read _ _); [| now exists []].
  destruct (files_create _ _ _ _); [| now eexists].
  destruct (disk_read _ _); [| now eexists].
  destruct (files_create _ _ _ _); [| now eexists].
  destruct (assistants_create _ _ _); now eexists.
Qed.

(** X11.  When the model is known, both tables are on the disk and the service
    accepts the two uploads and the assistant, [initialize_agent] makes
    exactly these three calls in this order, and the assistant is asked for
    with the identifiers of the two uploads, first table first. *)
Theorem initialize_agent_succeeds (s : App) (model : string)
    (d1 d2 : list Byte.byte) (id1 id2 aid : string)
    (core : AzureAssistantAgent) :
  setup_resources (remote s) = Ok model ->
  disk_read (app_disk s) (csv_file_path_1 (app_cwd s)) = Some d1 ->
  disk_read (app_disk s) (csv_file_path_2 (app_cwd s)) = Some d2 ->
  files_create (remote s) (calls s) (csv_file_path_1 (app_cwd s)) d1
  = Ok id1 ->
  files_create (remote s)
    (calls s ++ [FilesCreate (csv_file_path_1 (app_cwd s)) d1])
    (csv_file_path_2 (app_cwd s)) d2 = Ok id2 ->
  assistants_create (remote s)
    (calls s ++ [FilesCreate (csv_file_path_1 (app_cwd s)) d1;
                 FilesCreate (csv_file_path_2 (app_cwd s)) d2])
    (assistant_request model [id1; id2]) = Ok (aid, core) ->
  initialize_agent s
  = (Ok ({| agent_id := aid;
            agent_definition := assistant_request model [id1; id2];
            agent_core := core |}, AzureClient),
     mkApp (app_cwd s) (app_disk s) (app_open_fault s) (session s)
           (screen s)
           (calls s ++ [FilesCreate (csv_file_path_1 (app_cwd s)) d1;
                        FilesCreate (csv_file_path_2 (app_cwd s)) d2;
                        AssistantsCreate (assistant_request model [id1; id2])])
           (remote s)).
Proof.
  intros Hmodel Hd1 Hd2 Hid1 Hid2 Hmade.
  rewrite initialize_agent_cases. cbv zeta.
  now rewrite Hmodel, Hd1, Hid1, Hd2, Hid2, Hmade.
Qed.

Lemma initialize_agent_succeeds_witness :
  initialize_agent Demo.fresh
  = (Ok (Demo.the_agent, AzureClient),
     mkApp "/repo/agents" (app_disk Demo.fresh) (fun _ => None)
           empty_session []
           [FilesCreate (csv_file_path_1 "/repo/agents") Demo.table_1;
            FilesCreate (csv_file_path_2 "/repo/agents") Demo.table_2;
            AssistantsCreate
              (assistant_request "gpt-4o" ["file-1"; "file-2"])]
           Demo.service).
Proof.
  apply (initialize_agent_succeeds Demo.fresh "gpt-4o" Demo.table_1
           Demo.table_2 "file-1" "file-2" "asst-1" Demo.core);
    reflexivity.
Defined.

(** X12.  [initialize_agent] touches nothing but the service, and it never asks
    for an assistant before both tables were read and uploaded: a request
    for an assistant is always the third call, after the uploads of the first
    and the second table, and carries the two identifiers the service gave,
    the name [SampleAssistantAgent] and the instructions of the script.  An
    agent is returned only when that request was made. *)
Theorem assistant_needs_both_tables (s : App) :
  exists new : list ApiCall,
    snd (initialize_agent s)
    = mkApp (app_cwd s) (app_disk s) (app_open_fault s) (session s)
            (screen s) (calls s ++ new) (remote s)
    /\ (forall req : AssistantRequest,
          In (AssistantsCreate req) new ->
          exists (d1 d2 : list Byte.byte) (id1 id2 : string),
            new = [FilesCreate (csv_file_path_1 (app_cwd s)) d1;
                   FilesCreate (csv_file_path_2 (app_cwd s)) d2;
                   AssistantsCreate req]
            /\ disk_read (app_disk s) (csv_file_path_1 (app_cwd s)) = Some d1
            /\ disk_read (app_disk s) (csv_file_path_2 (app_cwd s)) = Some d2
            /\ files_create (remote s) (calls s)
                 (csv_file_path_1 (app_cwd s)) d1 = Ok id1
            /\ files_create (remote s)
                 (calls s ++ [FilesCreate (csv_file_path_1 (app_cwd s)) d1])
                 (csv_file_path_2 (app_cwd s)) d2 = Ok id2
            /\ req_file_ids req = [id1; id2]
            /\ req_name req = "SampleAssistantAgent"
            /\ req_instructions req = instructions)
    /\ (forall (agent : Agent) (client : Client),
          fst (initialize_agent s) = Ok (agent, client) ->
          In (AssistantsCreate (agent_definition agent)) new).
Proof.
  rewrite initialize_agent_cases. cbv zeta.
  assert (Hsame : s = mkApp (app_cwd s) (app_disk s) (app_open_fault s)
                            (session s) (screen s) (calls s ++ [])
                            (remote s))
    by (rewrite app_nil_r; now destruct s).
  destruct (setup_resources (remote s)) as [model|e].
  2: { exists []. cbn [fst snd]. split; [exact Hsame |].
       split; [intros ? [] | discriminate]. }
  destruct (disk_read (app_disk s) (csv_file_path_1 (app_cwd s)))
    as [d1|] eqn:Hd1.
  2: { exists []. cbn [fst snd]. split; [exact Hsame |].
       split; [intros ? [] | discriminate]. }
  destruct (files_create (remote s) (calls s) _ d1) as [id1|e] eqn:Hid1.
  2: { eexists. cbn [fst snd]. split; [reflexivity |].
       split; [| discriminate].
       intros req [Heq | []]. discriminate Heq. }
  destruct (disk_read (app_disk s) (csv_file_path_2 (app_cwd s)))
    as [d2|] eqn:Hd2.
  2: { eexists. cbn [fst snd]. split; [reflexivity |].
       split; [| discriminate].
       intros req [Heq | []]. discriminate Heq. }
  destruct (files_create (remote s) (calls s ++ _) _ d2) as [id2|e] eqn:Hid2.
  2: { eexists. cbn [fst snd]. split; [reflexivity |].
       split; [| discriminate].
       intros req [Heq | [Heq | []]]; discriminate Heq. }
  assert (Hreq : forall req : AssistantRequest,
            In (AssistantsCreate req)
               [FilesCreate (csv_file_path_1 (app_cwd s)) d1;
                FilesCreate (csv_file_path_2 (app_cwd s)) d2;
                AssistantsCreate (assistant_request model [id1; id2])] ->
            req = assistant_request model [id1; id2]).
  { intros req [Heq | [Heq | [Heq | []]]]; try discriminate Heq.
    now injection Heq. }
  destruct (assistants_create _ _ _) as [made|e]; eexists; cbn [fst snd];
    (split; [reflexivity |]); split.
  - intros req Hin. apply Hreq in Hin as ->.
    exists d1, d2, id1, id2. repeat split; assumption.
  - intros agent client Heq. injection Heq as <- _. cbn. auto.
  - intros req Hin. apply Hreq in Hin as ->.
    exists d1, d2, id1, id2. repeat split; assumption.
  - discriminate.
Qed.

(** ** The script *)

Lemma process_user_input_spec (user_input : string)
    (agent : AzureAssistantAgent) (th : option AssistantAgentThread)
    (w : World) :
  exists l : Locals,
    aggregate th (invoke_stream agent user_input th) = Ok l
    /\ process_user_input user_input agent th w
       = (Ok (collected_responses l, cur_thread l),
          mkWorld (cwd w)
                  (disk w ++ flat_map (saved w agent) (file_ids l))
                  (page w ++ flat_map (reported w agent) (file_ids l))
                  (open_fault w)).
Proof.
  destruct (run_loop_spec (invoke_stream agent user_input th)
              (init_locals th)) as (l & Hrun & _).
  exists (finish l). split; [now apply aggregate_run |].
  unfold process_user_input, Io.bind, Io.lift.
  rewrite (aggregate_run _ _ _ Hrun), download_response_image_spec.
  reflexivity.
Qed.

Lemma ensure_session_ready (s : App) (h : string) (agent : Agent) :
  ss_chat_history (session s) = Some h ->
  ss_agent (session s) = Some agent ->
  ensure_session s = (Ok tt, s).
Proof.
  intros Hh Hagent.
  unfold ensure_session, get_session, Ap.bind, Ap.ret.
  now rewrite Hh, Hagent.
Qed.

(** A query on a session that has an agent, a thread entry and a history. *)
Lemma process_query_spec (s : App) (user_input h : string) (agent : Agent)
    (client : option Client) (th : option AssistantAgentThread) :
  session s = mkSession (Some h) (Some agent) client (Some th) ->
  let w := mkWorld (app_cwd s) (app_disk s) [] (app_open_fault s) in
  exists l : Locals,
    aggregate th (invoke_stream (agent_core agent) user_input th) = Ok l
    /\ process_query user_input s
       = (Ok tt,
          mkApp (app_cwd s)
                (app_disk s
                   ++ flat_map (saved w (agent_core agent)) (file_ids l))
                (app_open_fault s)
                (mkSession
                   (Some ((h ++ LF ++ "**User:** " ++ user_input ++ LF)
                            ++ collected_responses l))
                   (Some agent) client (Some (cur_thread l)))
                (screen s
                   ++ st_info "Processing your query, please wait..."
                   :: map st_download
                        (flat_map (reported w (agent_core agent))
                                  (file_ids l))
                   ++ [st_markdown
                         ((h ++ LF ++ "**User:** " ++ user_input ++ LF)
                            ++ collected_responses l)])
                (calls s) (remote s)).
Proof.
  intros Hsession w.
  destruct (process_user_input_spec user_input (agent_core agent) th w)
    as (l & Hagg & Hrun).
  exists l. split; [exact Hagg |].
  unfold process_query, show_on_screen, session_attr, get_session,
    set_session, Ap.lift_io, Ap.bind.
  app_fields. rewrite Hsession. app_fields.
  fold w. rewrite Hrun. app_fields.
  rewrite <- !app_assoc. reflexivity.
Qed.

(** On a session that has its history and its agent, a run shows the title
    and goes straight to the form and the cleanup button. *)
Lemma script_run_ready (s : App) (inp : Inputs) (h : string) (agent : Agent) :
  ss_chat_history (session s) = Some h ->
  ss_agent (session s) = Some agent ->
  script_run inp s
  = (exec (if submit_button inp
              && negb (bool_decide (user_input_box inp = ""))
           then
             if bool_decide (lower (user_input_box inp) = "exit")
             then show_on_screen
                    (st_info "Exiting conversation. You can now clean up resources.")
             else process_query (user_input_box inp)
           else Ap.ret tt) ;
     if cleanup_button inp
     then exec cleanup ; show_on_screen (st_success "Resources cleaned up.")
     else Ap.ret tt)%app
      (mkApp (app_cwd s) (app_disk s) (app_open_fault s) (session s)
             (screen s ++ [st_title "Azure Assistant Agent Streamlit App"])
             (calls s) (remote s)).
Proof.
  intros Hh Hagent. unfold script_run.
  unfold Ap.bind at 1. unfold show_on_screen at 1.
  unfold Ap.bind at 1.
  rewrite (ensure_session_ready _ h agent) by assumption.
  reflexivity.
Qed.

(** X13.  Typing [exit], in any mix of upper and lower case, sends nothing to the
    agent: the run only shows the title and the farewell, and the session,
    the disk and the service are left as they were. *)
Theorem exit_sends_nothing (s : App) (inp : Inputs) (h : string)
    (agent : Agent) :
  ss_chat_history (session s) = Some h ->
  ss_agent (session s) = Some agent ->
  submit_button inp = true ->
  lower (user_input_box inp) = "exit" ->
  cleanup_button inp = false ->
  script_run inp s
  = (Ok tt,
     mkApp (app_cwd s) (app_disk s) (app_open_fault s) (session s)
           (screen s
              ++ [st_title "Azure Assistant Agent Streamlit App";
                  st_info "Exiting conversation. You can now clean up resources."])
           (calls s) (remote s)).
Proof.
  intros Hh Hagent Hsubmit Hexit Hcleanup.
  rewrite (script_run_ready s inp h agent Hh Hagent).
  rewrite Hsubmit, Hcleanup, Hexit.
  assert (Hne : user_input_box inp <> "")
    by (intros Heq; rewrite Heq in Hexit; discriminate Hexit).
  rewrite (bool_decide_eq_false_2 _ Hne).
  rewrite bool_decide_eq_true_2 by reflexivity.
  cbn [negb andb].
  unfold Ap.bind, show_on_screen, Ap.ret. app_fields.
  now rewrite <- app_assoc.
Qed.

Lemma exit_sends_nothing_witness :
  script_run (Demo.ask "ExIt") (Demo.talking Demo.service)
  = (Ok tt,
     mkApp "/repo/agents" [] (fun _ => None)
           (session (Demo.talking Demo.service))
           [st_title "Azure Assistant Agent Streamlit App";
            st_info "Exiting conversation. You can now clean up resources."]
           [] Demo.service).
Proof.
  apply (exit_sends_nothing (Demo.talking Demo.service) (Demo.ask "ExIt")
           "earlier" Demo.the_agent); reflexivity.
Defined.



(** *** The cleanup *)

Lemma cleanup_no_thread (s : App) :
  ss_thread (session s) = None \/ ss_thread (session s) = Some None ->
  cleanup s
  = (Ok tt, mkApp (app_cwd s) (app_disk s) (app_open_fault s) empty_session
                  (screen s) (calls s) (remote s)).
Proof.
  intros Hthread.
  unfold cleanup, get_session, set_session, Ap.bind, Ap.ret.
  destruct Hthread as [-> | ->]; reflexivity.
Qed.

(** X15.  With a thread in the session, the cleanup asks the service to delete
    the assistant of the agent and then the thread, in this order, and
    forgets the session only when both deletions went through.  When the
    assistant cannot be deleted the thread is not touched; when the thread
    cannot be deleted the assistant is already gone; in both cases the
    session is kept as it was and the error goes to the caller. *)
Theorem cleanup_with_thread (s : App) (agent : Agent)
    (t : AssistantAgentThread) :
  ss_agent (session s) = Some agent ->
  ss_thread (session s) = Some (Some t) ->
  cleanup s
  = match assistants_delete (remote s) (calls s) (agent_id agent) with
    | Raise e =>
        (Raise e,
         mkApp (app_cwd s) (app_disk s) (app_open_fault s) (session s)
               (screen s) (calls s ++ [AssistantsDelete (agent_id agent)])
               (remote s))
    | Ok _ =>
        match thread_delete (remote s)
                (calls s ++ [AssistantsDelete (agent_id agent)]) t with
        | Raise e =>
            (Raise e,
             mkApp (app_cwd s) (app_disk s) (app_open_fault s) (session s)
                   (screen s)
                   (calls s ++ [AssistantsDelete (agent_id agent);
                                ThreadDelete t])
                   (remote s))
        | Ok _ =>
            (Ok tt,
             mkApp (app_cwd s) (app_disk s) (app_open_fault s) empty_session
                   (screen s)
                   (calls s ++ [AssistantsDelete (agent_id agent);
                                ThreadDelete t])
                   (remote s))
        end
    end.
Proof.
  intros Hagent Hthread.
  unfold cleanup, get_session, set_session, session_attr, call_service,
    Ap.bind, Ap.ret.
  rewrite Hthread, Hagent. app_fields.
  destruct (assistants_delete _ _ _) as [[]|e]; [| reflexivity].
  rewrite Hthread. app_fields.
  destruct (thread_delete _ _ _) as [[]|e];
    rewrite <- app_assoc; reflexivity.
Qed.

Lemma cleanup_with_thread_witness :
  cleanup (Demo.talking Demo.service)
  = (Ok tt,
     mkApp "/repo/agents" [] (fun _ => None) empty_session []
           [AssistantsDelete "asst-1"; ThreadDelete Demo.t1] Demo.service)
  /\ cleanup (Demo.talking Demo.stubborn_service)
     = (Raise (ServiceError "forbidden"),
        mkApp "/repo/agents" [] (fun _ => None)
              (session (Demo.talking Demo.stubborn_service)) []
              [AssistantsDelete "asst-1"] Demo.stubborn_service).
Proof.
  split.
  - apply (cleanup_with_thread (Demo.talking Demo.service) Demo.the_agent
             Demo.t1); reflexivity.
  - apply (cleanup_with_thread (Demo.talking Demo.stubborn_service)
             Demo.the_agent Demo.t1); reflexivity.
Defined.

(** X16.  Pressing the cleanup button while the session holds no thread (the
    agent was created, no answer brought a thread yet) deletes nothing: the
    run makes no call to the service, forgets the session, agent included,
    and announces that the resources were cleaned up. *)
Theorem cleanup_button_without_thread (s : App) (inp : Inputs) (h : string)
    (agent : Agent) (client : option Client) :
  session s = mkSession (Some h) (Some agent) client (Some None) ->
  submit_button inp = false ->
  cleanup_button inp = true ->
  script_run inp s
  = (Ok tt,
     mkApp (app_cwd s) (app_disk s) (app_open_fault s) empty_session
           (screen s ++ [st_title "Azure Assistant Agent Streamlit App";
                         st_success "Resources cleaned up."])
           (calls s) (remote s)).
Proof.
  intros Hsession Hsubmit Hcleanup.
  assert (Hh : ss_chat_history (session s) = Some h)
    by now rewrite Hsession.
  assert (Hagent : ss_agent (session s) = Some agent)
    by now rewrite Hsession.
  rewrite (script_run_ready s inp h agent Hh Hagent).
  rewrite Hsubmit, Hcleanup. cbn [andb].
  unfold Ap.bind at 1. unfold Ap.ret at 1. unfold Ap.bind at 1.
  rewrite cleanup_no_thread
    by (right; cbn [session]; now rewrite Hsession).
  unfold show_on_screen. app_fields. now rewrite <- app_assoc.
Qed.

Lemma cleanup_button_without_thread_witness :
  script_run Demo.press_cleanup (Demo.ready Demo.service)
  = (Ok tt,
     mkApp "/repo/agents" [] (fun _ => None) empty_session
           [st_title "Azure Assistant Agent Streamlit App";
            st_success "Resources cleaned up."]
           [] Demo.service).
Proof.
  apply (cleanup_button_without_thread (Demo.ready Demo.service)
           Demo.press_cleanup "" Demo.the_agent (Some AzureClient));
    reflexivity.
Defined.

(** *** The first run *)

(** X17.  The run that finds no agent in the session creates one: when
    [initialize_agent] goes through, the session gets the agent, the client
    and an empty thread entry, the history it had (the empty string when it
    had none), and the page shows the two messages around the creation. *)
Theorem first_run_initialises (s : App) (inp : Inputs) (model : string)
    (d1 d2 : list Byte.byte) (id1 id2 aid : string)
    (core : AzureAssistantAgent) :
  ss_agent (session s) = None ->
  setup_resources (remote s) = Ok model ->
  disk_read (app_disk s) (csv_file_path_1 (app_cwd s)) = Some d1 ->
  disk_read (app_disk s) (csv_file_path_2 (app_cwd s)) = Some d2 ->
  files_create (remote s) (calls s) (csv_file_path_1 (app_cwd s)) d1
  = Ok id1 ->
  files_create (remote s)
    (calls s ++ [FilesCreate (csv_file_path_1 (app_cwd s)) d1])
    (csv_file_path_2 (app_cwd s)) d2 = Ok id2 ->
  assistants_create (remote s)
    (calls s ++ [FilesCreate (csv_file_path_1 (app_cwd s)) d1;
                 FilesCreate (csv_file_path_2 (app_cwd s)) d2])
    (assistant_request model [id1; id2]) = Ok (aid, core) ->
  submit_button inp = false ->
  cleanup_button inp = false ->
  script_run inp s
  = (Ok tt,
     mkApp (app_cwd s) (app_disk s) (app_open_fault s)
           (mkSession
              (Some (default "" (ss_chat_history (session s))))
              (Some {| agent_id := aid;
                       agent_definition := assistant_request model [id1; id2];
                       agent_core := core |})
              (Some AzureClient) (Some None))
           (screen s
              ++ [st_title "Azure Assistant Agent Streamlit App";
                  st_info "Initializing agent and uploading files. Please wait...";
                  st_success "Agent initialized."])
           (calls s ++ [FilesCreate (csv_file_path_1 (app_cwd s)) d1;
                        FilesCreate (csv_file_path_2 (app_cwd s)) d2;
                        AssistantsCreate (assistant_request model [id1; id2])])
           (remote s)).
Proof.
  intros Hagent Hmodel Hd1 Hd2 Hid1 Hid2 Hmade Hsubmit Hcleanup.
  unfold script_run, ensure_session, show_on_screen, get_session,
    set_session, Ap.bind, Ap.ret.
  rewrite Hsubmit, Hcleanup. app_fields.
  destruct (session s) as [h ag cl th] eqn:Hsession.
  cbn [ss_agent] in Hagent. subst ag. app_fields.
  destruct h as [h|]; app_fields;
    rewrite initialize_agent_cases; cbv zeta; app_fields;
    rewrite Hmodel, Hd1, Hid1, Hd2, Hid2, Hmade; app_fields;
    cbn [andb default]; rewrite <- !app_assoc; reflexivity.
Qed.

Lemma first_run_initialises_witness :
  script_run Demo.idle Demo.fresh
  = (Ok tt,
     mkApp "/repo/agents" (app_disk Demo.fresh) (fun _ => None)
           (mkSession (Some "") (Some Demo.the_agent) (Some AzureClient)
                      (Some None))
           [st_title "Azure Assistant Agent Streamlit App";
            st_info "Initializing agent and uploading files. Please wait...";
            st_success "Agent initialized."]
           [FilesCreate (csv_file_path_1 "/repo/agents") Demo.table_1;
            FilesCreate (csv_file_path_2 "/repo/agents") Demo.table_2;
            AssistantsCreate
              (assistant_request "gpt-4o" ["file-1"; "file-2"])]
           Demo.service).
Proof.
  apply (first_run_initialises Demo.fresh Demo.idle "gpt-4o" Demo.table_1
           Demo.table_2 "file-1" "file-2" "asst-1" Demo.core);
    reflexivity.
Defined.

(** A run that finds no agent, reads the first table and misses the
    second: it has asked for the upload of the first table, raises, and
    leaves the session without an agent. *)
Lemma run_with_second_table_missing (s : App) (inp : Inputs) (model : string)
    (d1 : list Byte.byte) :
  ss_agent (session s) = None ->
  setup_resources (remote s) = Ok model ->
  disk_read (app_disk s) (csv_file_path_1 (app_cwd s)) = Some d1 ->
  disk_read (app_disk s) (csv_file_path_2 (app_cwd s)) = None ->
  exists e : exn,
    script_run inp s
    = (Raise e,
       mkApp (app_cwd s) (app_disk s) (app_open_fault s)
             (mkSession (Some (default "" (ss_chat_history (session s))))
                        None (ss_client (session s)) (ss_thread (session s)))
             (screen s
                ++ [st_title "Azure Assistant Agent Streamlit App";
                    st_info "Initializing agent and uploading files. Please wait..."])
             (calls s ++ [FilesCreate (csv_file_path_1 (app_cwd s)) d1])
             (remote s)).
Proof.
  intros Hagent Hmodel Hd1 Hd2.
  unfold script_run, ensure_session, show_on_screen, get_session,
    set_session, Ap.bind, Ap.ret.
  app_fields.
  destruct (session s) as [h ag cl th] eqn:Hsession.
  cbn [ss_agent] in Hagent. subst ag. app_fields.
  destruct h as [h|]; app_fields;
    rewrite initialize_agent_cases; cbv zeta; app_fields;
    rewrite Hmodel, Hd1, Hd2;
    destruct (files_create _ _ _ _) as [id1|e]; eexists;
    rewrite <- ?app_assoc; reflexivity.
Qed.

(** X18.  While the second table is missing every run uploads the first table
    again and stops there: after any number of runs, whatever the user did,
    the service has been asked for as many uploads of the first table and
    for nothing else, and there is still no agent. *)
Theorem second_table_missing (inputs : list Inputs) (s : App)
    (model : string) (d1 : list Byte.byte) :
  ss_agent (session s) = None ->
  setup_resources (remote s) = Ok model ->
  disk_read (app_disk s) (csv_file_path_1 (app_cwd s)) = Some d1 ->
  disk_read (app_disk s) (csv_file_path_2 (app_cwd s)) = None ->
  calls (run_session inputs s)
  = (calls s
       ++ replicate (length inputs)
            (FilesCreate (csv_file_path_1 (app_cwd s)) d1))%list
  /\ ss_agent (session (run_session inputs s)) = None.
Proof.
  revert s. induction inputs as [|inp rest IH];
    intros s Hagent Hmodel Hd1 Hd2.
  - cbn. now rewrite app_nil_r.
  - destruct (run_with_second_table_missing s inp model d1
                Hagent Hmodel Hd1 Hd2) as (e & Hrun).
    cbn [run_session length replicate]. rewrite Hrun. cbn [snd].
    match goal with |- context [run_session rest ?s1] =>
      destruct (IH s1 eq_refl Hmodel Hd1 Hd2) as [Hcalls Hnone]
    end.
    split; [| exact Hnone].
    rewrite Hcalls. app_fields. now rewrite <- app_assoc.
Qed.

Lemma second_table_missing_witness :
  calls (run_session [Demo.idle; Demo.ask "hi"; Demo.press_cleanup]
                     Demo.incomplete)
  = replicate 3 (FilesCreate (csv_file_path_1 "/repo/agents") Demo.table_1)
  /\ ss_agent (session (run_session
                          [Demo.idle; Demo.ask "hi"; Demo.press_cleanup]
                          Demo.incomplete)) = None.
Proof.
  apply (second_table_missing [Demo.idle; Demo.ask "hi"; Demo.press_cleanup]
           Demo.incomplete "gpt-4o" Demo.table_1); reflexivity.
Defined.

(** *** The chat history *)

Lemma grows_history_ret {A} (a : A) : grows_history (Ap.ret a).
Proof. intros s h Hh. exists "". cbn. now rewrite append_empty_r. Qed.

Lemma grows_history_bind {A B} (m : APP A) (k : A -> APP B) :
  grows_history m -> (forall a, grows_history (k a)) ->
  grows_history (Ap.bind m k).
Proof.
  intros Hm Hk s h Hh. unfold Ap.bind.
  destruct (Hm s h Hh) as (more & Hmore).
  destruct (m s) as [[a|e] s1]; cbn [snd] in Hmore.
  - destruct (Hk a s1 _ Hmore) as (more' & Hmore').
    exists (more ++ more'). now rewrite <- append_assoc.
  - now exists more.
Qed.

Lemma grows_history_show (e : ScreenEvent) : grows_history (show_on_screen e).
Proof. intros s h Hh. exists "". cbn. now rewrite append_empty_r. Qed.

Lemma grows_history_ensure_session : grows_history ensure_session.
Proof.
  intros s h Hh. exists "". rewrite append_empty_r.
  unfold ensure_session, show_on_screen, get_session, set_session,
    Ap.bind, Ap.ret.
  rewrite Hh. app_fields.
  destruct (ss_agent (session s)); [exact Hh |].
  match goal with |- context [initialize_agent ?s1] =>
    destruct (initialize_agent_frame s1) as (new & Hframe);
    destruct (initialize_agent s1) as [[made|e] s2]
  end; cbn [snd] in Hframe; subst s2; app_fields; exact Hh.
Qed.

Lemma grows_history_process_query (user_input : string) :
  grows_history (process_query user_input).
Proof.
  intros s h Hh.
  destruct (session s) as [hh ag cl th] eqn:Hsession.
  cbn [ss_chat_history] in Hh. subst hh.
  destruct ag as [agent|]; [destruct th as [th|] |].
  - destruct (process_query_spec s user_input h agent cl th Hsession)
      as (l & _ & Hrun).
    rewrite Hrun. cbn [snd session ss_chat_history].
    rewrite append_assoc. eauto.
  - exists "". rewrite append_empty_r.
    unfold process_query, show_on_screen, session_attr, Ap.bind.
    app_fields. rewrite Hsession. reflexivity.
  - exists "". rewrite append_empty_r.
    unfold process_query, show_on_screen, session_attr, Ap.bind.
    app_fields. rewrite Hsession. reflexivity.
Qed.

Lemma grows_history_script_run (inp : Inputs) :
  cleanup_button inp = false -> grows_history (script_run inp).
Proof.
  intros Hcleanup. unfold script_run. rewrite Hcleanup.
  apply grows_history_bind; [apply grows_history_show | intros _].
  apply grows_history_bind; [apply grows_history_ensure_session | intros _].
  apply grows_history_bind; [| intros _; apply grows_history_ret].
  destruct (submit_button inp && _); [| apply grows_history_ret].
  destruct (bool_decide _);
    [apply grows_history_show | apply grows_history_process_query].
Qed.

(** X19.  As long as the cleanup button is not pressed the chat history is only
    ever extended: whatever the runs do, whether they return or raise, what
    was in the history stays at its beginning. *)
Theorem history_only_grows (inputs : list Inputs) (s : App) (h : string) :
  Forall (fun inp => cleanup_button inp = false) inputs ->
  ss_chat_history (session s) = Some h ->
  exists more : string,
    ss_chat_history (session (run_session inputs s)) = Some (h ++ more).
Proof.
  revert s h. induction inputs as [|inp rest IH]; intros s h Hall Hh.
  - exists "". cbn. now rewrite append_empty_r.
  - apply Forall_cons in Hall as [Hcleanup Hrest].
    destruct (grows_history_script_run inp Hcleanup s h Hh)
      as (more & Hmore).
    destruct (IH _ _ Hrest Hmore) as (more' & Hmore').
    exists (more ++ more'). cbn [run_session].
    now rewrite <- append_assoc.
Qed.

Lemma history_only_grows_witness :
  exists more : string,
    ss_chat_history
      (session (run_session [Demo.ask "hi"; Demo.idle; Demo.ask "exit"]
                            (Demo.talking Demo.service)))
    = Some ("earlier" ++ more).
Proof.
  apply (history_only_grows [Demo.ask "hi"; Demo.idle; Demo.ask "exit"]
           (Demo.talking Demo.service) "earlier").
  - repeat constructor.
  - reflexivity.
Defined.


